(** * news_parser: a shallow embedding of [parse_news.py]

    The program reads a saved HTML page, walks the BeautifulSoup tree of the
    page and groups the news cards it finds by rubric.  This file embeds

    - the Python string operations the program calls ([str.strip], ASCII
      lower-casing done by the selector engine),
    - the part of the BeautifulSoup / soupsieve API the program calls
      ([select], [select_one], [get_text(strip=True)], [get], [has_attr],
      [tag[key]]) over an explicit document tree,
    - [parse_news], [load_html] and [main] themselves,

    and then states and proves the properties of the specification. *)

From Stdlib Require Import List String Ascii Bool Arith NArith Lia.
From Stdlib Require Import DecimalString.
Import ListNotations.
Open Scope string_scope.

(* ================================================================= *)
(** ** Python exceptions and the two effect layers *)

(** The exceptions that the modelled operations can raise. *)
Inductive exn : Type :=
| FileNotFoundError (message : string)
| IsADirectoryError (path : string)
| UnicodeDecodeError
| KeyError (key : string).

(** A computation that either returns or raises. *)
Inductive Exc (A : Type) : Type :=
| Ok (value : A)
| Raise (e : exn).
Arguments Ok {A} value.
Arguments Raise {A} e.

Definition exc_bind {A B : Type} (c : Exc A) (k : A -> Exc B) : Exc B :=
  match c with
  | Ok a => k a
  | Raise e => Raise e
  end.

Declare Scope exc_scope.
Delimit Scope exc_scope with exc.
Notation "x <- c ;; k" := (exc_bind c (fun x => k))
  (at level 61, c at next level, right associativity) : exc_scope.

(** [for x in xs: acc = body(acc, x)], stopping at the first exception. *)
Fixpoint for_each {A S : Type} (body : S -> A -> Exc S) (xs : list A) (acc : S)
  : Exc S :=
  match xs with
  | [] => Ok acc
  | x :: rest => exc_bind (body acc x) (for_each body rest)
  end.

(* ================================================================= *)
(** ** Python [str]

    A Python [str] is represented by its UTF-8 encoding, one [ascii] per
    byte, so that the literals of the source can be written as they are. *)

Module PyStr.

Local Open Scope N_scope.

Definition byte (n : N) : ascii := ascii_of_N n.

(** UTF-8 encoding of one code point. *)
Definition utf8_encode (cp : N) : string :=
  if cp <? 128 then String (byte cp) ""
  else if cp <? 2048 then
    String (byte (192 + cp / 64)) (String (byte (128 + cp mod 64)) "")
  else if cp <? 65536 then
    String (byte (224 + cp / 4096))
      (String (byte (128 + (cp / 64) mod 64))
         (String (byte (128 + cp mod 64)) ""))
  else
    String (byte (240 + cp / 262144))
      (String (byte (128 + (cp / 4096) mod 64))
         (String (byte (128 + (cp / 64) mod 64))
            (String (byte (128 + cp mod 64)) ""))).

(** The code points for which [str.isspace] holds; these are the ones
    that [str.strip()] removes. *)
Definition WHITESPACE : list N :=
  [9; 10; 11; 12; 13; 28; 29; 30; 31; 32; 133; 160; 5760;
   8192; 8193; 8194; 8195; 8196; 8197; 8198; 8199; 8200; 8201; 8202;
   8232; 8233; 8239; 8287; 12288].

(** Splits a [str] into its characters (each one the bytes of one code
    point), by the length announced in the lead byte. *)
Fixpoint chars (s : string) : list string :=
  match s with
  | EmptyString => []
  | String b0 r0 =>
    let n := N_of_ascii b0 in
    if n <? 192 then String b0 "" :: chars r0
    else
      match r0 with
      | EmptyString => [s]
      | String b1 r1 =>
        if n <? 224 then String b0 (String b1 "") :: chars r1
        else
          match r1 with
          | EmptyString => [s]
          | String b2 r2 =>
            if n <? 240 then String b0 (String b1 (String b2 "")) :: chars r2
            else
              match r2 with
              | EmptyString => [s]
              | String b3 r3 =>
                String b0 (String b1 (String b2 (String b3 ""))) :: chars r3
              end
          end
      end
  end.

Definition unchars (cs : list string) : string :=
  fold_right String.append "" cs.

Definition isspace (c : string) : bool :=
  existsb (String.eqb c) (map utf8_encode WHITESPACE).

Fixpoint dropwhile {A : Type} (p : A -> bool) (l : list A) : list A :=
  match l with
  | [] => []
  | x :: rest => if p x then dropwhile p rest else l
  end.

(** [s.strip()]: leading and trailing whitespace removed. *)
Definition strip (s : string) : string :=
  unchars (rev (dropwhile isspace (rev (dropwhile isspace (chars s))))).

(** [s] is empty or consists of whitespace only. *)
Definition blank (s : string) : bool := forallb isspace (chars s).

(** soupsieve's [util.lower]: lower-cases the ASCII letters only. *)
Definition lower_byte (c : ascii) : ascii :=
  let n := N_of_ascii c in
  if (65 <=? n) && (n <=? 90) then byte (n + 32) else c.

Fixpoint lower (s : string) : string :=
  match s with
  | EmptyString => EmptyString
  | String c rest => String (lower_byte c) (lower rest)
  end.

(** ["".join(parts)] *)
Definition join (parts : list string) : string :=
  fold_right String.append "" parts.

Definition nonempty (s : string) : bool :=
  match s with
  | EmptyString => false
  | String _ _ => true
  end.

(** *** Decoding a file

    [read_text(encoding="utf-8")] decodes the bytes of the file strictly
    (no overlong form, no surrogate, nothing above U+10FFFF) and, as the
    file is opened in text mode, turns every line ending into ["\n"]. *)

Definition in_range (lo hi : N) (b : ascii) : bool :=
  (lo <=? N_of_ascii b) && (N_of_ascii b <=? hi).

Definition continuation (b : ascii) : bool := in_range 128 191 b.

Definition second_of_three (b0 b1 : ascii) : bool :=
  if N_of_ascii b0 =? 224 then in_range 160 191 b1
  else if N_of_ascii b0 =? 237 then in_range 128 159 b1
  else continuation b1.

Definition second_of_four (b0 b1 : ascii) : bool :=
  if N_of_ascii b0 =? 240 then in_range 144 191 b1
  else if N_of_ascii b0 =? 244 then in_range 128 143 b1
  else continuation b1.

Fixpoint valid_utf8 (s : string) : bool :=
  match s with
  | EmptyString => true
  | String b0 r0 =>
    if in_range 0 127 b0 then valid_utf8 r0
    else
      match r0 with
      | EmptyString => false
      | String b1 r1 =>
        if in_range 194 223 b0 then continuation b1 && valid_utf8 r1
        else
          match r1 with
          | EmptyString => false
          | String b2 r2 =>
            if in_range 224 239 b0 then
              second_of_three b0 b1 && continuation b2 && valid_utf8 r2
            else
              match r2 with
              | EmptyString => false
              | String b3 r3 =>
                in_range 240 244 b0 && second_of_four b0 b1
                && continuation b2 && continuation b3 && valid_utf8 r3
              end
          end
      end
  end.

Definition CR : ascii := byte 13.
Definition LF : ascii := byte 10.

Fixpoint universal_newlines (s : string) : string :=
  match s with
  | EmptyString => EmptyString
  | String c r =>
    if Ascii.eqb c CR then
      match r with
      | EmptyString => String LF EmptyString
      | String c' r' =>
        if Ascii.eqb c' LF then String LF (universal_newlines r')
        else String LF (universal_newlines r)
      end
    else String c (universal_newlines r)
  end.

End PyStr.

(* ================================================================= *)
(** ** The BeautifulSoup tree

    [BeautifulSoup(html, "lxml")] builds a tree of tags and strings.  A tag
    has a name, attributes and contents.  The tree builder stores the
    value of [class] as the list of its tokens and the values of the other
    attributes that the program reads ([href], [datetime]) as [str]; the
    two are kept in separate fields here. *)

Module Soup.

(** The classes of the strings in a tree. *)
Inductive string_kind : Type :=
| NavigableString | CData | Comment | Declaration | Doctype
| ProcessingInstruction | Script | Stylesheet | TemplateString
| RubyTextString | RubyParenthesisString.

Record tag_head : Type := mk_head {
  name : string;
  classes : list string;
  attrs : list (string * string)
}.

#[warnings="-register-all"] Inductive node : Type :=
| Str (kind : string_kind) (text : string)
| Tag (head : tag_head) (contents : list node).

(** A [Tag] object as the program holds it: the tag together with the
    chain of its parents, the nearest one first.  The chain ends with the
    [BeautifulSoup] object. *)
Record element : Type := mk_element {
  parents : list tag_head;
  head : tag_head;
  contents : list node
}.

(** The [BeautifulSoup] object is itself a tag, named ["[document]"]. *)
Definition document_head : tag_head := mk_head "[document]" [] [].

Definition soup_of (top : list node) : element :=
  mk_element [] document_head top.

(** The tags below a node, the node included, in document order. *)
Fixpoint tags_of (ps : list tag_head) (n : node) : list element :=
  match n with
  | Str _ _ => []
  | Tag h cs => mk_element ps h cs :: flat_map (tags_of (h :: ps)) cs
  end.

(** [el.descendants], restricted to tags. *)
Definition descendants (el : element) : list element :=
  flat_map (tags_of (head el :: parents el)) (contents el).

(** *** CSS selectors

    The selectors of the program are compound selectors (an optional type
    selector and class selectors) joined by the descendant combinator. *)

Record compound : Type := mk_compound {
  sel_tag : option string;
  sel_classes : list string
}.

(** A selector [c1 c2 ... cn], written left to right. *)
Definition selector : Type := list compound.

Definition match_tagname (c : compound) (h : tag_head) : bool :=
  match sel_tag c with
  | None => true
  | Some t => String.eqb (PyStr.lower t) (PyStr.lower (name h))
  end.

Definition match_classes (c : compound) (h : tag_head) : bool :=
  forallb (fun cl => existsb (String.eqb cl) (classes h)) (sel_classes c).

Definition match_compound (c : compound) (h : tag_head) : bool :=
  match_tagname c h && match_classes c h.

(** [match_past cs ps]: the compounds [cs] (the innermost first) are matched
    by some chain of tags taken in order from the parents [ps]. *)
Fixpoint match_past (cs : list compound) (ps : list tag_head) : bool :=
  match cs with
  | [] => true
  | c :: cs' =>
    (fix scan (ps : list tag_head) : bool :=
       match ps with
       | [] => false
       | p :: ps' => (match_compound c p && match_past cs' ps') || scan ps'
       end) ps
  end.

Definition matches (sel : selector) (el : element) : bool :=
  match rev sel with
  | [] => false
  | c :: cs => match_compound c (head el) && match_past cs (parents el)
  end.

(** [el.select(sel)]: the descendants of [el] that match, in document
    order.  The parents that a selector asks for may lie above [el]. *)
Definition select (el : element) (sel : selector) : list element :=
  filter (matches sel) (descendants el).

(** [el.select_one(sel)]: the first match, or [None]. *)
Definition select_one (el : element) (sel : selector) : option element :=
  match select el sel with
  | [] => None
  | x :: _ => Some x
  end.

(** *** Text and attributes *)

(** The strings below a node, in document order. *)
Fixpoint strings_of (n : node) : list (string_kind * string) :=
  match n with
  | Str k s => [(k, s)]
  | Tag _ cs => flat_map strings_of cs
  end.

Definition kind_eqb (a b : string_kind) : bool :=
  match a, b with
  | NavigableString, NavigableString | CData, CData | Comment, Comment
  | Declaration, Declaration | Doctype, Doctype
  | ProcessingInstruction, ProcessingInstruction | Script, Script
  | Stylesheet, Stylesheet | TemplateString, TemplateString
  | RubyTextString, RubyTextString
  | RubyParenthesisString, RubyParenthesisString => true
  | _, _ => false
  end.

(** [tag.interesting_string_types]: the tree builder gives a few tags a
    string class of their own; every other tag reads [NavigableString] and
    [CData]. *)
Definition interesting_string_types (h : tag_head) : list string_kind :=
  if String.eqb (name h) "style" then [Stylesheet]
  else if String.eqb (name h) "script" then [Script]
  else if String.eqb (name h) "template" then [TemplateString]
  else if String.eqb (name h) "rt" then [RubyTextString]
  else if String.eqb (name h) "rp" then [RubyParenthesisString]
  else [NavigableString; CData].

(** [el._all_strings(strip=True)] *)
Definition all_strings_strip (el : element) : list string :=
  filter PyStr.nonempty
    (map (fun ks => PyStr.strip (snd ks))
       (filter
          (fun ks => existsb (kind_eqb (fst ks))
                       (interesting_string_types (head el)))
          (flat_map strings_of (contents el)))).

(** [el.get_text(strip=True)] *)
Definition get_text_strip (el : element) : string :=
  PyStr.join (all_strings_strip el).

Fixpoint lookup {V : Type} (k : string) (d : list (string * V)) : option V :=
  match d with
  | [] => None
  | (k', v) :: rest => if String.eqb k k' then Some v else lookup k rest
  end.

(** [el.get(key, default)] *)
Definition get (el : element) (key default : string) : string :=
  match lookup key (attrs (head el)) with
  | Some v => v
  | None => default
  end.

(** [el.has_attr(key)] *)
Definition has_attr (el : element) (key : string) : bool :=
  match lookup key (attrs (head el)) with
  | Some _ => true
  | None => false
  end.

(** [el[key]], which raises [KeyError] when the attribute is missing. *)
Definition getitem (el : element) (key : string) : Exc string :=
  match lookup key (attrs (head el)) with
  | Some v => Ok v
  | None => Raise (KeyError key)
  end.

End Soup.

(* ================================================================= *)
(** ** [parse_news] *)

Module News.

Import Soup.
Local Open Scope exc_scope.

(** A news record: a Python [dict] from [str] to [str], in insertion
    order. *)
Definition news_item : Type := list (string * string).

(** The result of [parse_news]: a Python [dict] from the rubric to the list
    of its records, in insertion order. *)
Definition dict : Type := list (string * list news_item).

(** [key in d] *)
Definition dict_contains (key : string) (d : dict) : bool :=
  match lookup key d with
  | Some _ => true
  | None => false
  end.

(** [d[key]] *)
Definition dict_getitem (d : dict) (key : string) : Exc (list news_item) :=
  match lookup key d with
  | Some v => Ok v
  | None => Raise (KeyError key)
  end.

(** [d[key] = v]: a key that is present keeps its place, a new key goes
    last. *)
Fixpoint dict_setitem (key : string) (v : list news_item) (d : dict) : dict :=
  match d with
  | [] => [(key, v)]
  | (k, v') :: rest =>
    if String.eqb key k then (k, v) :: rest
    else (k, v') :: dict_setitem key v rest
  end.

(** The selectors of the source. *)

(** ["div.node__cart__item.show_views_and_comments"] *)
Definition SEL_ITEM : selector :=
  [mk_compound (Some "div") ["node__cart__item"; "show_views_and_comments"]].

(** ["div.node__cart__item__category_news div a"] *)
Definition SEL_RUBRIC : selector :=
  [mk_compound (Some "div") ["node__cart__item__category_news"];
   mk_compound (Some "div") [];
   mk_compound (Some "a") []].

(** ["a.node__cart__item__inside"] *)
Definition SEL_LINK : selector :=
  [mk_compound (Some "a") ["node__cart__item__inside"]].

(** ["div.node__cart__item__inside__info"] *)
Definition SEL_INFO : selector :=
  [mk_compound (Some "div") ["node__cart__item__inside__info"]].

(** ["div.node__cart__item__inside__info__title span"] *)
Definition SEL_TITLE : selector :=
  [mk_compound (Some "div") ["node__cart__item__inside__info__title"];
   mk_compound (Some "span") []].

(** ["div.node__cart__item__inside__info__description"] *)
Definition SEL_DESC : selector :=
  [mk_compound (Some "div") ["node__cart__item__inside__info__description"]].

(** ["time"] *)
Definition SEL_TIME : selector := [mk_compound (Some "time") []].

(** [x.get_text(strip=True) if x else ""]; a [Tag] is always true, so the
    test is a test for [None]. *)
Definition text_or_empty (x : option element) : string :=
  match x with
  | Some t => get_text_strip t
  | None => ""
  end.

(** [time_tag["datetime"] if time_tag and time_tag.has_attr("datetime")
    else ""] *)
Definition datetime_of (time_tag : option element) : Exc string :=
  match time_tag with
  | Some t => if has_attr t "datetime" then getitem t "datetime" else Ok ""
  | None => Ok ""
  end.

(** The first half of the loop body: the fields of one card.  [None]
    stands for [continue]. *)
Definition extract_item (item : element) : Exc (option (string * news_item)) :=
  match select_one item SEL_RUBRIC with
  | None => Ok None
  | Some rubric_link =>
    let category := get_text_strip rubric_link in
    match select_one item SEL_LINK with
    | None => Ok None
    | Some link_tag =>
      let url := PyStr.strip (get link_tag "href" "") in
      match select_one link_tag SEL_INFO with
      | None => Ok None
      | Some info =>
        let title_span := select_one info SEL_TITLE in
        let title := text_or_empty title_span in
        let desc_div := select_one info SEL_DESC in
        let description := text_or_empty desc_div in
        let time_tag := select_one info SEL_TIME in
        datetime_iso <- datetime_of time_tag ;;
        let time_text := text_or_empty time_tag in
        Ok (Some (category,
                  [("title", title);
                   ("description", description);
                   ("url", url);
                   ("datetime", datetime_iso);
                   ("time_text", time_text)]))
      end
    end
  end.

(** The second half of the loop body: the record goes to its rubric. *)
Definition add_item (result : dict) (category : string) (item : news_item)
  : Exc dict :=
  let result :=
    if negb (dict_contains category result)
    then dict_setitem category [] result
    else result in
  items <- dict_getitem result category ;;
  Ok (dict_setitem category (items ++ [item]) result).

Definition loop_body (result : dict) (item : element) : Exc dict :=
  extracted <- extract_item item ;;
  match extracted with
  | None => Ok result
  | Some (category, record) => add_item result category record
  end.

(** [parse_news] on the tree that the parser has built. *)
Definition parse_soup (soup : element) : Exc dict :=
  for_each loop_body (select soup SEL_ITEM) [].

Section Parser.

(** [BeautifulSoup(html, "lxml")]: the top-level nodes of the tree. *)
Variable BeautifulSoup : string -> list node.

Definition parse_news (html : string) : Exc dict :=
  let soup := soup_of (BeautifulSoup html) in
  parse_soup soup.

End Parser.

End News.

(* ================================================================= *)
(** ** The file system, [load_html] and [main] *)

Module Program.

Import News.

(** What a path names. *)
Inductive entry : Type :=
| Directory
| RegularFile (data : string).

(** The part of the world that the program reads and writes: the file
    system, seen from the working directory, and the standard output. *)
Record World : Type := mk_world {
  fs : string -> option entry;
  stdout : list string
}.

(** A computation that reads and writes the world and may raise. *)
Definition IO (A : Type) : Type := World -> Exc A * World.

Definition ret {A : Type} (a : A) : IO A := fun w => (Ok a, w).

Definition raise {A : Type} (e : exn) : IO A := fun w => (Raise e, w).

Definition bind {A B : Type} (c : IO A) (k : A -> IO B) : IO B :=
  fun w =>
    match c w with
    | (Ok a, w') => k a w'
    | (Raise e, w') => (Raise e, w')
    end.

(** A computation that does not touch the world. *)
Definition lift {A : Type} (c : Exc A) : IO A := fun w => (c, w).

Declare Scope io_scope.
Delimit Scope io_scope with io.
Notation "x <- c ;; k" := (bind c (fun x => k))
  (at level 61, c at next level, right associativity) : io_scope.
Notation "c ;; k" := (bind c (fun _ => k))
  (at level 61, right associativity) : io_scope.
Local Open Scope io_scope.

(** [Path(path).exists()] *)
Definition exists_ (path : string) : IO bool :=
  fun w =>
    match fs w path with
    | Some _ => (Ok true, w)
    | None => (Ok false, w)
    end.

(** [Path(path).read_text(encoding="utf-8")] *)
Definition read_text (path : string) : IO string :=
  fun w =>
    match fs w path with
    | None => (Raise (FileNotFoundError path), w)
    | Some Directory => (Raise (IsADirectoryError path), w)
    | Some (RegularFile data) =>
      if PyStr.valid_utf8 data
      then (Ok (PyStr.universal_newlines data), w)
      else (Raise UnicodeDecodeError, w)
    end.

(** [Path(path).write_text(text, encoding="utf-8")] *)
Definition write_text (path text : string) : IO unit :=
  fun w =>
    match fs w path with
    | Some Directory => (Raise (IsADirectoryError path), w)
    | _ =>
      (Ok tt,
       mk_world (fun p => if String.eqb p path then Some (RegularFile text)
                          else fs w p)
                (stdout w))
    end.

(** [print(text)] *)
Definition print (text : string) : IO unit :=
  fun w => (Ok tt, mk_world (fs w) (stdout w ++ [text])).

Fixpoint for_io {A : Type} (body : A -> IO unit) (xs : list A) : IO unit :=
  match xs with
  | [] => ret tt
  | x :: rest => body x ;; for_io body rest
  end.

Definition INPUT_FILE : string := "news.html".

Definition NOT_FOUND_MESSAGE : string :=
  "Файл 'news.html' не найден. "
  ++ "Сначала скачайте страницу из WebArchive и сохраните её как news.html "
  ++ "в папку проекта news_parser.".

Definition load_html (path : string) : IO string :=
  present <- exists_ path ;;
  if negb present
  then raise (FileNotFoundError NOT_FOUND_MESSAGE)
  else read_text path.

(** [str(n)] for a length. *)
Definition str_of_nat (n : nat) : string :=
  NilZero.string_of_uint (Nat.to_uint n).

Definition NL : string := String PyStr.LF "".

Section Main.

Variable BeautifulSoup : string -> list Soup.node.

(** [json.dumps(obj, ensure_ascii=False, indent=2)] *)
Variable json_dumps : dict -> string.

(** [str(Path(p).resolve())] *)
Variable resolve : string -> string.

Definition main : IO unit :=
  html <- load_html INPUT_FILE ;;
  grouped_news <- lift (parse_news BeautifulSoup html) ;;
  print "Найдено новостей по рубрикам:" ;;
  for_io
    (fun pair : string * list news_item =>
       let (category, items) := pair in
       print ("- " ++ category ++ ": " ++ str_of_nat (List.length items)))
    grouped_news ;;
  print (NL ++ "Структура данных:") ;;
  print (json_dumps grouped_news) ;;
  let output_path := "news_parsed.json" in
  write_text output_path (json_dumps grouped_news) ;;
  print (NL ++ "Результат сохранён в " ++ resolve output_path).

End Main.

End Program.

(* ================================================================= *)
(** ** Sample documents *)

Module Samples.

Import Soup News.

Definition div (cls : list string) (cs : list node) : node :=
  Tag (mk_head "div" cls []) cs.

Definition text (s : string) : node := Str NavigableString s.

Definition a_rubric (s : string) : node :=
  div ["node__cart__item__category_news"]
    [div [] [Tag (mk_head "a" [] [("href", "/rubric")]) [text s]]].

Definition a_inside (href : string) (cs : list node) : node :=
  Tag (mk_head "a" ["node__cart__item__inside"] [("href", href)]) cs.

Definition info_block (cs : list node) : node :=
  div ["node__cart__item__inside__info"] cs.

Definition title_block (s : string) : node :=
  div ["node__cart__item__inside__info__title"]
    [Tag (mk_head "span" [] []) [text s]].

Definition description_block (s : string) : node :=
  div ["node__cart__item__inside__info__description"] [text s].

Definition time_block (iso shown : string) : node :=
  Tag (mk_head "time" [] [("datetime", iso)]) [text shown].

Definition card (cs : list node) : node :=
  div ["node__cart__item"; "show_views_and_comments"] cs.

(** The tree of a page: lxml wraps the content in [html] and [body]. *)
Definition page (cs : list node) : element :=
  soup_of [Tag (mk_head "html" [] []) [Tag (mk_head "body" [] []) cs]].

(** The two cards of the example of the specification. *)
Definition card_society : node :=
  card [a_rubric "Society";
        a_inside " /society/x "
          [info_block [title_block "X"; time_block "2024-01-01T10:00" " 10:00 "]]].

Definition card_army : node :=
  card [a_rubric "Army";
        a_inside "/army/y"
          [info_block [title_block "Y"; description_block "Z"]]].

(** A card with a rubric and a primary link whose link has no inner
    content block. *)
Definition card_no_info : node :=
  card [a_rubric "Army"; a_inside "/army/y" [text "Y"]].

(** A card without a primary link, and one without a rubric. *)
Definition card_no_link : node := card [a_rubric "Army"].

Definition card_no_rubric : node :=
  card [a_inside "/army/y" [info_block [title_block "Y"]]].

(** A card whose rubric link holds white space only. *)
Definition card_blank_rubric : node :=
  card [a_rubric "  ";
        a_inside "/x" [info_block [title_block "X"]]].

(** The first card of a page, as the loop of [parse_news] receives it. *)
Definition first_card (soup : element) : element :=
  hd soup (select soup SEL_ITEM).

Definition item_no_link : element := first_card (page [card_no_link]).
Definition item_society : element := first_card (page [card_society]).
Definition item_blank_rubric : element := first_card (page [card_blank_rubric]).

(** The rubric link of a card. *)
Definition rubric_of (item : element) : element :=
  match select_one item SEL_RUBRIC with
  | Some rubric_link => rubric_link
  | None => item
  end.

End Samples.

(* ================================================================= *)
(** ** The vocabulary of the specification *)

Module Spec.

Import Soup News.

(** [k in l] for a list of keys. *)
Definition mem (k : string) (l : list string) : bool :=
  existsb (String.eqb k) l.

(** The keys of a list in the order of their first appearance. *)
Fixpoint first_seen (l : list string) : list string :=
  match l with
  | [] => []
  | x :: rest =>
    x :: filter (fun y => negb (String.eqb y x)) (first_seen rest)
  end.

(** The records filed under [k], in the order of the sequence. *)
Definition items_of (k : string) (pairs : list (string * news_item))
  : list news_item :=
  map snd (filter (fun p => String.eqb (fst p) k) pairs).

(** The pairs that the loop extracts from a sequence of cards. *)
Definition pairs_of (items : list element) : list (string * news_item) :=
  flat_map
    (fun item =>
       match extract_item item with
       | Ok (Some p) => [p]
       | _ => []
       end)
    items.

(** [extract(document_tree)] of the specification. *)
Definition extract (soup : element) : list (string * news_item) :=
  pairs_of (select soup SEL_ITEM).

(** [aggregate(pairs)] of the specification: the second half of the loop
    body, run over a sequence of pairs from the empty mapping. *)
Definition aggregate (pairs : list (string * news_item)) : Exc dict :=
  for_each (fun result p => add_item result (fst p) (snd p)) pairs [].

(** The number of records in a result. *)
Definition count_records (result : dict) : nat :=
  list_sum (map (fun kv => List.length (snd kv)) result).

(** The three lookups that decide whether a card is kept: the rubric link,
    the primary link and the inner content block of the primary link. *)
Definition accepted (item : element) : bool :=
  match select_one item SEL_RUBRIC, select_one item SEL_LINK with
  | Some _, Some link_tag =>
    match select_one link_tag SEL_INFO with
    | Some _ => true
    | None => false
    end
  | _, _ => false
  end.

(** The inner content block of a card, when its primary link has one. *)
Definition info_of (item : element) : option element :=
  match select_one item SEL_LINK with
  | Some link_tag => select_one link_tag SEL_INFO
  | None => None
  end.


(** Every string that [get_text] reads below the tag is empty or white
    space; a tag that holds no string at all is blank as well. *)
Definition blank_text (el : element) : bool :=
  forallb (fun ks => PyStr.blank (snd ks))
    (filter
       (fun ks => existsb (kind_eqb (fst ks))
                    (interesting_string_types (head el)))
       (flat_map strings_of (contents el))).

(** [needle in hay] for two strings. *)
Fixpoint occurs (needle hay : string) : bool :=
  String.prefix needle hay
  || match hay with
     | EmptyString => false
     | String _ rest => occurs needle rest
     end.

(** The list under [c], or the empty list when [c] is not a key. *)
Definition items_at (c : string) (result : dict) : list news_item :=
  match lookup c result with
  | Some items => items
  | None => []
  end.

(** What the second half of the loop body leaves in [result]. *)
Definition group_insert (result : dict) (c : string) (n : news_item) : dict :=
  dict_setitem c (items_at c result ++ [n]) result.

Definition grouped (pairs : list (string * news_item)) (acc : dict) : dict :=
  fold_left (fun r p => group_insert r (fst p) (snd p)) pairs acc.

(** What the first half of the loop body returns. *)
Definition extracted (item : element) : option (string * news_item) :=
  match extract_item item with
  | Ok r => r
  | Raise _ => None
  end.

End Spec.

(** Sample worlds. *)
Module Worlds.

Import Program.

(** An empty working directory. *)
Definition empty_world : World := mk_world (fun _ => None) [].

(** A working directory in which [news.html] holds a byte that is not
    UTF-8. *)
Definition undecodable_world : World :=
  mk_world
    (fun p => if String.eqb p "news.html"
              then Some (RegularFile (String (PyStr.byte 255) ""))
              else None)
    [].

(** A working directory in which [news.html] is a directory. *)
Definition directory_world : World :=
  mk_world
    (fun p => if String.eqb p "news.html" then Some Directory else None)
    [].

(** A working directory in which [news.html] is a small page. *)
Definition page_world : World :=
  mk_world
    (fun p => if String.eqb p "news.html"
              then Some (RegularFile "<html><body></body></html>")
              else None)
    [].

End Worlds.

(* ================================================================= *)
(** ** The vocabulary of the report of [main] *)

Module Report.

Import Soup News Spec Program.

Definition OUTPUT_FILE : string := "news_parsed.json".

(** The line that [main] prints for one rubric. *)
Definition summary_line (pair : string * list news_item) : string :=
  let (category, items) := pair in
  "- " ++ category ++ ": " ++ str_of_nat (List.length items).

(** What [main] prints before it writes the output file. *)
Definition report_lines (json_dumps : dict -> string) (result : dict)
  : list string :=
  ("Найдено новостей по рубрикам:" :: map summary_line result)
  ++ [NL ++ "Структура данных:"; json_dumps result].

(** What [main] prints after it has written the output file. *)
Definition saved_line (resolve : string -> string) : string :=
  NL ++ "Результат сохранён в " ++ resolve OUTPUT_FILE.

(** The mapping that [parse_news] returns for a text. *)
Definition parsed (BeautifulSoup : string -> list node) (html : string)
  : dict :=
  grouped (extract (soup_of (BeautifulSoup html))) [].

(** The file system after [path] has been written. *)
Definition fs_with (fs : string -> option entry) (path text : string)
  : string -> option entry :=
  fun p => if String.eqb p path then Some (RegularFile text) else fs p.

(** The string holds a carriage return. *)
Fixpoint has_cr (s : string) : bool :=
  match s with
  | EmptyString => false
  | String c rest => Ascii.eqb c PyStr.CR || has_cr rest
  end.

(** [l1] is an initial segment of [l2]. *)
Definition prefix_of {A : Type} (l1 l2 : list A) : Prop :=
  exists rest, l2 = (l1 ++ rest)%list.

(** A parser that answers every text with the tree of one page, and
    stand-ins for [json.dumps] and [Path.resolve]. *)
Definition sample_parser (html : string) : list node :=
  contents (Samples.page [Samples.card_society; Samples.card_army;
                          Samples.card_no_info]).

Definition sample_dumps (result : dict) : string :=
  "{" ++ String.concat ", " (map fst result) ++ "}".

Definition sample_resolve (path : string) : string := "/srv/news/" ++ path.

(** A working directory in which [news.html] is a page with Windows line
    ends and [news_parsed.json] is a directory. *)
Definition output_is_directory_world : World :=
  mk_world
    (fun p => if String.eqb p "news.html"
              then Some (RegularFile
                           ("<html>" ++ String PyStr.CR (String PyStr.LF "")
                            ++ "</html>"))
              else if String.eqb p "news_parsed.json" then Some Directory
              else None)
    ["earlier output"].

(** A working directory in which [news.html] is a page with Windows line
    ends and nothing else exists. *)
Definition crlf_world : World :=
  mk_world
    (fun p => if String.eqb p "news.html"
              then Some (RegularFile
                           ("<html>" ++ String PyStr.CR (String PyStr.LF "")
                            ++ "</html>"))
              else None)
    [].

End Report.

(* ================================================================= *)
(** ** [parse_news] with its accumulator as an object

    The accumulator [result] of [parse_news] is a Python object: [{}]
    creates it, [result[category] = []] and [result[category].append(...)]
    change it in place, and the caller receives a reference to it.  This
    module runs the same loop over an interpreter state that holds the
    objects created so far beside the world, so that what a call reads,
    changes and leaves behind can be stated.  The lists under the keys
    are reachable through [result] only and are kept by value. *)

Module Store.

Import Soup News Program.

(** A reference to a dict object. *)
Definition addr : Type := nat.

Record Interp : Type := mk_interp {
  io : World;
  heap : list dict
}.

(** A computation that reads and changes the interpreter state and may
    raise. *)
Definition Py (A : Type) : Type := Interp -> Exc A * Interp.

Definition ret {A : Type} (a : A) : Py A := fun st => (Ok a, st).

Definition bind {A B : Type} (c : Py A) (k : A -> Py B) : Py B :=
  fun st =>
    match c st with
    | (Ok a, st') => k a st'
    | (Raise e, st') => (Raise e, st')
    end.

(** A computation that only returns or raises. *)
Definition lift_exc {A : Type} (c : Exc A) : Py A := fun st => (c, st).

Declare Scope py_scope.
Delimit Scope py_scope with py.
Notation "x <- c ;; k" := (bind c (fun x => k))
  (at level 61, c at next level, right associativity) : py_scope.
Notation "c ;; k" := (bind c (fun _ => k))
  (at level 61, right associativity) : py_scope.
Local Open Scope py_scope.

(** The object behind a reference; a reference always names an object
    that exists, the empty dict stands for the case that cannot occur. *)
Definition deref (st : Interp) (a : addr) : dict := nth a (heap st) [].

Fixpoint update {A : Type} (n : nat) (x : A) (l : list A) {struct l}
  : list A :=
  match l, n with
  | [], _ => []
  | _ :: rest, O => x :: rest
  | y :: rest, S n' => y :: update n' x rest
  end.

(** [{}]: a new, empty dict object. *)
Definition new_dict : Py addr :=
  fun st =>
    (Ok (List.length (heap st)), mk_interp (io st) (heap st ++ [[]])).

Definition load (a : addr) : Py dict := fun st => (Ok (deref st a), st).

Definition store (a : addr) (d : dict) : Py unit :=
  fun st => (Ok tt, mk_interp (io st) (update a d (heap st))).

(** [key in result] *)
Definition contains (result : addr) (key : string) : Py bool :=
  d <- load result ;;
  ret (dict_contains key d).

(** [result[key]] *)
Definition getitem (result : addr) (key : string) : Py (list news_item) :=
  d <- load result ;;
  lift_exc (dict_getitem d key).

(** [result[key] = v] *)
Definition setitem (result : addr) (key : string) (v : list news_item)
  : Py unit :=
  d <- load result ;;
  store result (dict_setitem key v d).

(** Lines 94-96. *)
Definition add_item (result : addr) (category : string) (item : news_item)
  : Py unit :=
  present <- contains result category ;;
  (if negb present then setitem result category [] else ret tt) ;;
  items <- getitem result category ;;
  setitem result category (items ++ [item]).

(** Lines 47-96; the lookups of the first half read the tree only. *)
Definition loop_body (result : addr) (item : element) : Py unit :=
  extracted <- lift_exc (extract_item item) ;;
  match extracted with
  | None => ret tt
  | Some (category, record) => add_item result category record
  end.

Fixpoint for_py {A : Type} (body : A -> Py unit) (xs : list A) : Py unit :=
  match xs with
  | [] => ret tt
  | x :: rest => body x ;; for_py body rest
  end.

Definition parse_soup (soup : element) : Py addr :=
  result <- new_dict ;;
  for_py (loop_body result) (select soup SEL_ITEM) ;;
  ret result.

Section Parser.

Variable BeautifulSoup : string -> list node.

Definition parse_news (html : string) : Py addr :=
  let soup := soup_of (BeautifulSoup html) in
  parse_soup soup.

End Parser.

(** An interpreter state that already holds two objects. *)
Definition busy_state : Interp :=
  mk_interp (mk_world (fun _ => None) ["earlier output"])
            [[("Army", [[("title", "old")]])]; []].

End Store.

(* ================================================================= *)
(** ** Lemmas on the building blocks *)

Module Facts.

Import Soup News Spec.

Lemma for_each_app {A S : Type} (body : S -> A -> Exc S) (xs ys : list A)
      (acc : S) :
  for_each body (xs ++ ys) acc
  = exc_bind (for_each body xs acc) (for_each body ys).
Proof.
  revert acc. induction xs as [|x xs IH]; intros acc; simpl.
  - reflexivity.
  - destruct (body acc x); simpl; auto.
Qed.

Lemma dropwhile_all {A : Type} (p : A -> bool) (l : list A) :
  forallb p l = true -> PyStr.dropwhile p l = [].
Proof.
  induction l as [|x l IH]; simpl; intros H.
  - reflexivity.
  - apply andb_true_iff in H. destruct H as [Hx Hl]. rewrite Hx. auto.
Qed.

Lemma strip_blank (s : string) : PyStr.blank s = true -> PyStr.strip s = "".
Proof.
  unfold PyStr.blank, PyStr.strip. intros H.
  rewrite (dropwhile_all _ _ H). reflexivity.
Qed.

(** *** The dictionary operations *)

Lemma lookup_setitem (k c : string) (v : list news_item) (d : dict) :
  lookup k (dict_setitem c v d)
  = if String.eqb k c then Some v else lookup k d.
Proof.
  induction d as [|[k0 v0] d IH]; simpl.
  - reflexivity.
  - destruct (String.eqb c k0) eqn:Hc; simpl.
    + apply String.eqb_eq in Hc. subst k0.
      destruct (String.eqb k c); reflexivity.
    + rewrite IH. destruct (String.eqb k k0) eqn:Hk.
      * apply String.eqb_eq in Hk. subst k0.
        rewrite String.eqb_sym, Hc. reflexivity.
      * reflexivity.
Qed.

Lemma contains_lookup (c : string) (d : dict) :
  dict_contains c d = true -> exists v, lookup c d = Some v.
Proof.
  unfold dict_contains. destruct (lookup c d); [eauto | discriminate].
Qed.

Lemma contains_keys (c : string) (d : dict) :
  dict_contains c d = mem c (map fst d).
Proof.
  unfold dict_contains, mem.
  induction d as [|[k0 v0] d IH]; simpl.
  - reflexivity.
  - destruct (String.eqb c k0); simpl; auto.
Qed.

Lemma keys_setitem (c : string) (v : list news_item) (d : dict) :
  map fst (dict_setitem c v d)
  = if dict_contains c d then map fst d else (map fst d ++ [c])%list.
Proof.
  unfold dict_contains.
  induction d as [|[k0 v0] d IH]; simpl.
  - reflexivity.
  - destruct (String.eqb c k0) eqn:Hc; simpl.
    + reflexivity.
    + rewrite IH. destruct (lookup c d); reflexivity.
Qed.

Lemma setitem_setitem (c : string) (v1 v2 : list news_item) (d : dict) :
  dict_setitem c v2 (dict_setitem c v1 d) = dict_setitem c v2 d.
Proof.
  induction d as [|[k0 v0] d IH]; simpl.
  - rewrite String.eqb_refl. reflexivity.
  - destruct (String.eqb c k0) eqn:Hc; simpl; rewrite Hc.
    + reflexivity.
    + rewrite IH. reflexivity.
Qed.

Lemma In_setitem (c : string) (v : list news_item) (d : dict)
      (k : string) (items : list news_item) :
  In (k, items) (dict_setitem c v d) ->
  (k = c /\ items = v) \/ In (k, items) d.
Proof.
  induction d as [|[k0 v0] d IH]; simpl.
  - intros [H | []]. inversion H. auto.
  - destruct (String.eqb c k0) eqn:Hc; simpl.
    + apply String.eqb_eq in Hc. subst k0.
      intros [H | H]; [inversion H; auto | auto].
    + intros [H | H]; [auto | ].
      destruct (IH H) as [? | ?]; auto.
Qed.

Lemma lookup_In (c : string) (d : dict) (items : list news_item) :
  lookup c d = Some items -> In (c, items) d.
Proof.
  induction d as [|[k0 v0] d IH]; simpl.
  - discriminate.
  - destruct (String.eqb c k0) eqn:Hc.
    + apply String.eqb_eq in Hc. subst k0. intros H. inversion H. auto.
    + auto.
Qed.

Lemma count_setitem (c : string) (v : list news_item) (d : dict) :
  count_records (dict_setitem c v d) + List.length (items_at c d)
  = count_records d + List.length v.
Proof.
  unfold count_records, items_at.
  induction d as [|[k0 v0] d IH]; simpl.
  - lia.
  - destruct (String.eqb c k0) eqn:Hc; simpl.
    + lia.
    + destruct (lookup c d); simpl in *; lia.
Qed.

(** *** The two halves of the loop body *)

Lemma getitem_guarded (t : element) (key : string) :
  has_attr t key = true -> exists v, getitem t key = Ok v.
Proof.
  unfold has_attr, getitem.
  destruct (lookup key (attrs (head t))); [eauto | discriminate].
Qed.

Lemma datetime_of_ok (time_tag : option element) :
  exists v, datetime_of time_tag = Ok v.
Proof.
  destruct time_tag as [t|]; simpl; [ | eauto].
  destruct (has_attr t "datetime") eqn:H; [ | eauto].
  apply getitem_guarded. exact H.
Qed.

Lemma extract_item_ok (item : element) :
  extract_item item = Ok (extracted item).
Proof.
  unfold extracted.
  destruct (extract_item item) as [r|e] eqn:H; [reflexivity | exfalso].
  unfold extract_item in H.
  destruct (select_one item SEL_RUBRIC); [ | discriminate].
  destruct (select_one item SEL_LINK) as [link_tag|]; [ | discriminate].
  destruct (select_one link_tag SEL_INFO) as [info|]; [ | discriminate].
  destruct (datetime_of_ok (select_one info SEL_TIME)) as [v Hv].
  rewrite Hv in H. discriminate.
Qed.

Lemma add_item_eq (result : dict) (c : string) (n : news_item) :
  add_item result c n = Ok (group_insert result c n).
Proof.
  unfold add_item, group_insert, items_at, dict_getitem.
  destruct (dict_contains c result) eqn:Hc; simpl.
  - destruct (contains_lookup _ _ Hc) as [v Hv]. rewrite Hv. reflexivity.
  - rewrite lookup_setitem, String.eqb_refl. simpl.
    rewrite setitem_setitem.
    unfold dict_contains in Hc.
    destruct (lookup c result); [discriminate | reflexivity].
Qed.

Lemma loop_body_eq (result : dict) (item : element) :
  loop_body result item
  = Ok match extracted item with
       | None => result
       | Some (c, n) => group_insert result c n
       end.
Proof.
  unfold loop_body. rewrite extract_item_ok. simpl.
  destruct (extracted item) as [[c n]|]; [apply add_item_eq | reflexivity].
Qed.

Lemma pairs_of_cons (item : element) (items : list element) :
  pairs_of (item :: items)
  = (match extracted item with Some p => [p] | None => [] end
     ++ pairs_of items)%list.
Proof.
  unfold pairs_of. simpl. rewrite extract_item_ok. reflexivity.
Qed.

Lemma for_each_loop_body (items : list element) (acc : dict) :
  for_each loop_body items acc = Ok (grouped (pairs_of items) acc).
Proof.
  revert acc. induction items as [|item items IH]; intros acc.
  - reflexivity.
  - simpl for_each. rewrite loop_body_eq, pairs_of_cons. simpl exc_bind.
    rewrite IH. destruct (extracted item) as [[c n]|]; reflexivity.
Qed.

Lemma for_each_add_item (pairs : list (string * news_item)) (acc : dict) :
  for_each (fun result p => add_item result (fst p) (snd p)) pairs acc
  = Ok (grouped pairs acc).
Proof.
  revert acc. induction pairs as [|p pairs IH]; intros acc; simpl.
  - reflexivity.
  - rewrite add_item_eq. simpl. apply IH.
Qed.

Lemma parse_soup_eq (soup : element) :
  parse_soup soup = Ok (grouped (extract soup) []).
Proof. apply for_each_loop_body. Qed.

Lemma parse_soup_aggregate (soup : element) :
  parse_soup soup = aggregate (extract soup).
Proof.
  rewrite parse_soup_eq. unfold aggregate. rewrite for_each_add_item.
  reflexivity.
Qed.

(** *** The fold over the extracted pairs *)

Lemma grouped_snoc (pairs : list (string * news_item)) (p : string * news_item)
      (acc : dict) :
  grouped (pairs ++ [p]) acc = group_insert (grouped pairs acc) (fst p) (snd p).
Proof. unfold grouped. rewrite fold_left_app. reflexivity. Qed.

Lemma mem_app (x : string) (l1 l2 : list string) :
  mem x (l1 ++ l2) = mem x l1 || mem x l2.
Proof. unfold mem. apply existsb_app. Qed.

Lemma mem_filter_neq (x a : string) (l : list string) :
  mem x (filter (fun y => negb (String.eqb y a)) l)
  = negb (String.eqb x a) && mem x l.
Proof.
  unfold mem. induction l as [|y l IH]; simpl.
  - rewrite andb_false_r. reflexivity.
  - destruct (String.eqb y a) eqn:Hy; simpl; rewrite IH.
    + apply String.eqb_eq in Hy. subst y.
      destruct (String.eqb x a); reflexivity.
    + destruct (String.eqb x y) eqn:Hx; simpl.
      * apply String.eqb_eq in Hx. subst y. rewrite Hy. reflexivity.
      * reflexivity.
Qed.

Lemma mem_first_seen (x : string) (l : list string) :
  mem x (first_seen l) = mem x l.
Proof.
  induction l as [|a l IH].
  - reflexivity.
  - simpl first_seen. unfold mem at 1 2. simpl existsb.
    fold (mem x (filter (fun y => negb (String.eqb y a)) (first_seen l))).
    fold (mem x l).
    rewrite mem_filter_neq, IH.
    destruct (String.eqb x a); reflexivity.
Qed.

Lemma first_seen_snoc (l : list string) (x : string) :
  first_seen (l ++ [x])
  = if mem x l then first_seen l else (first_seen l ++ [x])%list.
Proof.
  induction l as [|a l IH].
  - reflexivity.
  - simpl app. simpl first_seen. rewrite IH.
    unfold mem. simpl existsb. fold (mem x l).
    destruct (String.eqb x a) eqn:Hx; simpl.
    + apply String.eqb_eq in Hx. subst a.
      destruct (mem x l); [reflexivity | ].
      rewrite filter_app. simpl. rewrite String.eqb_refl. simpl.
      rewrite app_nil_r. reflexivity.
    + destruct (mem x l); [reflexivity | ].
      rewrite filter_app. simpl. rewrite Hx. reflexivity.
Qed.

Lemma first_seen_NoDup (l : list string) : NoDup (first_seen l).
Proof.
  induction l as [|a l IH]; simpl.
  - constructor.
  - constructor.
    + intros H. apply filter_In in H. destruct H as [_ H].
      rewrite String.eqb_refl in H. discriminate.
    + apply NoDup_filter. exact IH.
Qed.

Lemma grouped_keys (pairs : list (string * news_item)) :
  map fst (grouped pairs []) = first_seen (map fst pairs).
Proof.
  induction pairs as [|[c n] pairs IH] using rev_ind.
  - reflexivity.
  - rewrite grouped_snoc. unfold group_insert. simpl fst. simpl snd.
    rewrite keys_setitem, contains_keys, IH, mem_first_seen.
    rewrite map_app. simpl map. rewrite first_seen_snoc. reflexivity.
Qed.

Lemma items_of_snoc (k : string) (pairs : list (string * news_item))
      (c : string) (n : news_item) :
  items_of k (pairs ++ [(c, n)])
  = (items_of k pairs ++ if String.eqb c k then [n] else [])%list.
Proof.
  unfold items_of. rewrite filter_app, map_app. simpl.
  destruct (String.eqb c k); reflexivity.
Qed.

Lemma grouped_lookup (pairs : list (string * news_item)) (k : string) :
  lookup k (grouped pairs [])
  = if mem k (map fst pairs) then Some (items_of k pairs) else None.
Proof.
  induction pairs as [|[c n] pairs IH] using rev_ind.
  - reflexivity.
  - rewrite grouped_snoc. unfold group_insert, items_at. simpl fst. simpl snd.
    rewrite lookup_setitem, map_app, mem_app, items_of_snoc. simpl map.
    unfold mem at 2. simpl existsb. rewrite orb_false_r.
    destruct (String.eqb k c) eqn:Hk.
    + apply String.eqb_eq in Hk. subst c.
      rewrite IH, orb_true_r, String.eqb_refl.
      destruct (mem k (map fst pairs)) eqn:Hm; [reflexivity | ].
      unfold items_of.
      replace (filter (fun p => String.eqb (fst p) k) pairs)
        with (@nil (string * news_item)); [reflexivity | ].
      symmetry. clear IH. induction pairs as [|[c' n'] pairs IH']; simpl.
      * reflexivity.
      * unfold mem in Hm. simpl in Hm. apply orb_false_iff in Hm.
        destruct Hm as [Hc Hm]. rewrite String.eqb_sym, Hc. apply IH'. exact Hm.
    + rewrite IH, orb_false_r, String.eqb_sym, Hk, app_nil_r. reflexivity.
Qed.

Lemma grouped_count (pairs : list (string * news_item)) (acc : dict) :
  count_records (grouped pairs acc) = count_records acc + List.length pairs.
Proof.
  revert acc. induction pairs as [|[c n] pairs IH]; intros acc; simpl.
  - lia.
  - rewrite IH. unfold group_insert. simpl fst. simpl snd.
    pose proof (count_setitem c (items_at c acc ++ [n]) acc) as H.
    rewrite length_app in H. simpl in H. lia.
Qed.


Lemma extracted_accepted (item : element) :
  match extracted item with Some _ => true | None => false end
  = accepted item.
Proof.
  unfold extracted, accepted, extract_item.
  destruct (select_one item SEL_RUBRIC); [ | reflexivity].
  destruct (select_one item SEL_LINK) as [link_tag|]; [ | reflexivity].
  destruct (select_one link_tag SEL_INFO) as [info|]; [ | reflexivity].
  destruct (datetime_of_ok (select_one info SEL_TIME)) as [v Hv].
  rewrite Hv. reflexivity.
Qed.

Lemma pairs_of_length (items : list element) :
  List.length (pairs_of items) = List.length (filter accepted items).
Proof.
  induction items as [|item items IH].
  - reflexivity.
  - rewrite pairs_of_cons, length_app, IH. simpl filter.
    rewrite <- extracted_accepted.
    destruct (extracted item); reflexivity.
Qed.


End Facts.

(* ================================================================= *)
(** ** The properties of the specification *)

Module Claims.

Import Soup News Spec Facts Samples Program Worlds.

(** *** The example of the specification *)

Example two_cards_two_rubrics :
  parse_soup (page [card_society; card_army])
  = Ok [("Society",
         [[("title", "X"); ("description", ""); ("url", "/society/x");
           ("datetime", "2024-01-01T10:00"); ("time_text", "10:00")]]);
        ("Army",
         [[("title", "Y"); ("description", "Z"); ("url", "/army/y");
           ("datetime", ""); ("time_text", "")]])].
Proof. vm_compute. reflexivity. Qed.

Example card_without_primary_link_is_absent :
  parse_soup (page [card_society; card_no_link; card_no_rubric])
  = parse_soup (page [card_society]).
Proof. vm_compute. reflexivity. Qed.

Example strip_removes_unicode_white_space :
  PyStr.strip (PyStr.utf8_encode 160 ++ " Армия" ++ PyStr.utf8_encode 8195)
  = "Армия".
Proof. vm_compute. reflexivity. Qed.

Example load_html_returns_the_page :
  load_html "news.html" page_world
  = (Ok "<html><body></body></html>", page_world).
Proof. reflexivity. Qed.

(** *** Extraction *)



(** C2: a card without a rubric link, or without a primary link, leaves
    the accumulator as it was (no record, not even a partial one), the loop
    body returns normally (nothing is raised or reported), and the loop
    goes on: the run over a sequence of cards that holds such a card is
    the run over the sequence without it. *)
Theorem card_without_rubric_or_link_is_skipped
        (item : element) (before after : list element) (acc result : dict) :
  select_one item SEL_RUBRIC = None \/ select_one item SEL_LINK = None ->
  extract_item item = Ok None
  /\ loop_body result item = Ok result
  /\ for_each loop_body (before ++ item :: after) acc
     = for_each loop_body (before ++ after) acc.
Proof.
  intros H.
  assert (He : extract_item item = Ok None).
  { unfold extract_item.
    destruct H as [H | H]; rewrite H; [reflexivity | ].
    destruct (select_one item SEL_RUBRIC); reflexivity. }
  assert (Hb : forall r, loop_body r item = Ok r).
  { intros r. unfold loop_body. rewrite He. reflexivity. }
  split; [exact He | ]. split; [apply Hb | ].
  rewrite !for_each_app.
  destruct (for_each loop_body before acc) as [r|e]; simpl.
  - rewrite Hb. reflexivity.
  - reflexivity.
Qed.

Lemma card_without_rubric_or_link_is_skipped_witness :
  (select_one item_no_link SEL_RUBRIC = None
   \/ select_one item_no_link SEL_LINK = None)
  /\ loop_body [] item_no_link = Ok []
  /\ for_each loop_body ([item_society] ++ item_no_link :: [item_society]) []
     = for_each loop_body ([item_society] ++ [item_society]) [].
Proof.
  assert (H : select_one item_no_link SEL_RUBRIC = None
              \/ select_one item_no_link SEL_LINK = None)
    by (right; vm_compute; reflexivity).
  split; [exact H | ].
  exact (proj2 (card_without_rubric_or_link_is_skipped
                  item_no_link [item_society] [item_society] [] [] H)).
Defined.

(** C3: [parse_news] returns a mapping whose keys come in the order in
    which the rubrics first appear among the accepted cards, taken in
    document order, and the list under a key holds the records of the
    accepted cards of that rubric, all of them, in document order. *)
Theorem rubrics_and_records_keep_document_order (soup : element) :
  exists result,
    parse_soup soup = Ok result
    /\ map fst result = first_seen (map fst (extract soup))
    /\ NoDup (map fst result)
    /\ forall k,
         lookup k result
         = if mem k (map fst (extract soup))
           then Some (items_of k (extract soup))
           else None.
Proof.
  exists (grouped (extract soup) []).
  split; [apply parse_soup_eq | ].
  split; [apply grouped_keys | ].
  split; [rewrite grouped_keys; apply first_seen_NoDup | ].
  intros k. apply grouped_lookup.
Qed.

(** *** Records *)

(** The record that the loop builds from the inner content block [info]
    and the primary link [link_tag]. *)
Lemma extract_item_record (item : element) (c : string) (n : news_item) :
  extract_item item = Ok (Some (c, n)) ->
  exists rubric_link link_tag info datetime_iso,
    select_one item SEL_RUBRIC = Some rubric_link
    /\ select_one item SEL_LINK = Some link_tag
    /\ select_one link_tag SEL_INFO = Some info
    /\ datetime_of (select_one info SEL_TIME) = Ok datetime_iso
    /\ c = get_text_strip rubric_link
    /\ n = [("title", text_or_empty (select_one info SEL_TITLE));
            ("description", text_or_empty (select_one info SEL_DESC));
            ("url", PyStr.strip (get link_tag "href" ""));
            ("datetime", datetime_iso);
            ("time_text", text_or_empty (select_one info SEL_TIME))].
Proof.
  unfold extract_item. intros H.
  destruct (select_one item SEL_RUBRIC) as [rubric_link|] eqn:Hr;
    [ | discriminate].
  destruct (select_one item SEL_LINK) as [link_tag|] eqn:Hl;
    [ | discriminate].
  destruct (select_one link_tag SEL_INFO) as [info|] eqn:Hi;
    [ | discriminate].
  destruct (datetime_of (select_one info SEL_TIME)) as [d|e] eqn:Hd;
    [ | discriminate].
  simpl in H. inversion H. subst.
  exists rubric_link, link_tag, info, d. repeat split; assumption.
Qed.


(** *** Empty documents *)

(** C6: a document in which nothing matches the card selector gives the
    empty mapping; and the aggregation returns for every sequence of
    pairs, the empty mapping for the empty sequence. *)
Theorem no_card_gives_the_empty_mapping
        (soup : element) (pairs : list (string * news_item)) :
  select soup SEL_ITEM = [] ->
  parse_soup soup = Ok []
  /\ extract soup = []
  /\ (exists result, aggregate pairs = Ok result)
  /\ aggregate [] = Ok [].
Proof.
  intros H. split; [unfold parse_soup; rewrite H; reflexivity | ].
  split; [unfold extract; rewrite H; reflexivity | ].
  split; [ | reflexivity].
  exists (grouped pairs []). apply for_each_add_item.
Qed.

Lemma no_card_gives_the_empty_mapping_witness :
  select (page [text "no news today"]) SEL_ITEM = []
  /\ parse_soup (page [text "no news today"]) = Ok []
  /\ (exists result,
         aggregate [("Army", [("title", "Y")]); ("Army", [("title", "Z")])]
         = Ok result).
Proof.
  assert (H : select (page [text "no news today"]) SEL_ITEM = [])
    by (vm_compute; reflexivity).
  pose proof (no_card_gives_the_empty_mapping
                (page [text "no news today"])
                [("Army", [("title", "Y")]); ("Army", [("title", "Z")])] H)
    as (H1 & _ & H3 & _).
  split; [exact H | ]. split; [exact H1 | exact H3].
Defined.

(** *** Loading the page *)

Lemma load_html_cases (path : string) (w : World) :
  load_html path w
  = match fs w path with
    | None => (Raise (FileNotFoundError NOT_FOUND_MESSAGE), w)
    | Some Directory => (Raise (IsADirectoryError path), w)
    | Some (RegularFile data) =>
      if PyStr.valid_utf8 data
      then (Ok (PyStr.universal_newlines data), w)
      else (Raise UnicodeDecodeError, w)
    end.
Proof.
  unfold load_html, bind, exists_, read_text, raise.
  destruct (fs w path) as [[|data]|] eqn:H; simpl; rewrite ?H; reflexivity.
Qed.

(** C7, as the specification states it, fails: [load_html] also raises
    when a file exists at the path.  With a [news.html] whose bytes are not
    UTF-8 it raises [UnicodeDecodeError], and with a directory of that name
    it raises [IsADirectoryError]; neither error carries the descriptive
    message. *)
Lemma load_html_raises_for_an_existing_file :
  fs undecodable_world "news.html"
  = Some (RegularFile (String (PyStr.byte 255) ""))
  /\ load_html "news.html" undecodable_world
     = (Raise UnicodeDecodeError, undecodable_world)
  /\ fs directory_world "news.html" = Some Directory
  /\ load_html "news.html" directory_world
     = (Raise (IsADirectoryError "news.html"), directory_world).
Proof.
  split; [reflexivity | ].
  split; [rewrite load_html_cases; reflexivity | ].
  split; [reflexivity | ].
  rewrite load_html_cases. reflexivity.
Qed.

(** C7, amended: [load_html] raises [FileNotFoundError] with the fixed
    descriptive message, which names [news.html], exactly when nothing
    exists at the path; [main] then ends with that error before it parses,
    prints or writes anything.  When a regular file with valid UTF-8
    content exists at the path, [load_html] returns its decoded text, the
    line endings turned into ["\n"].  A directory, or a file that is not
    valid UTF-8, makes [read_text] raise an error of its own. *)
Theorem load_html_reports_a_missing_file
        (BeautifulSoup : string -> list node) (json_dumps : dict -> string)
        (resolve : string -> string) (path : string) (w : World) :
  (load_html path w = (Raise (FileNotFoundError NOT_FOUND_MESSAGE), w)
   <-> fs w path = None)
  /\ occurs "news.html" NOT_FOUND_MESSAGE = true
  /\ (fs w INPUT_FILE = None ->
      main BeautifulSoup json_dumps resolve w
      = (Raise (FileNotFoundError NOT_FOUND_MESSAGE), w))
  /\ (forall data,
         fs w path = Some (RegularFile data) ->
         PyStr.valid_utf8 data = true ->
         load_html path w = (Ok (PyStr.universal_newlines data), w))
  /\ (forall data,
         fs w path = Some (RegularFile data) ->
         PyStr.valid_utf8 data = false ->
         load_html path w = (Raise UnicodeDecodeError, w))
  /\ (fs w path = Some Directory ->
      load_html path w = (Raise (IsADirectoryError path), w)).
Proof.
  split.
  { rewrite load_html_cases. split.
    - destruct (fs w path) as [[|data]|]; [discriminate | | reflexivity].
      destruct (PyStr.valid_utf8 data); discriminate.
    - intros ->. reflexivity. }
  split; [vm_compute; reflexivity | ].
  split.
  { intros H. unfold main, bind. rewrite load_html_cases, H. reflexivity. }
  split; [intros data H Hv; rewrite load_html_cases, H, Hv; reflexivity | ].
  split; [intros data H Hv; rewrite load_html_cases, H, Hv; reflexivity | ].
  intros H. rewrite load_html_cases, H. reflexivity.
Qed.

(** *** Totality *)

(** C8: [parse_news] returns for every text, whatever tree the parser
    builds for it.  The subscript [time_tag["datetime"]] is the one lookup
    that can raise, and it is evaluated only where [has_attr] holds, where
    it returns; the dictionary subscript of the aggregation returns as
    well. *)
Theorem parse_news_never_raises
        (BeautifulSoup : string -> list node) (html : string) :
  (exists result, parse_news BeautifulSoup html = Ok result)
  /\ (forall item, exists r, extract_item item = Ok r)
  /\ (forall time_tag, exists v, datetime_of time_tag = Ok v)
  /\ (forall t key, has_attr t key = true -> exists v, getitem t key = Ok v)
  /\ (forall t key, has_attr t key = false -> getitem t key = Raise (KeyError key))
  /\ (forall result c n, exists result', add_item result c n = Ok result').
Proof.
  split.
  { eexists. unfold parse_news. apply parse_soup_eq. }
  split; [intros item; eexists; apply extract_item_ok | ].
  split; [apply datetime_of_ok | ].
  split; [apply getitem_guarded | ].
  split.
  { intros t key. unfold has_attr, getitem.
    destruct (lookup key (attrs (head t))); [discriminate | reflexivity]. }
  intros result c n. eexists. apply add_item_eq.
Qed.

(** *** Blank rubrics *)

Lemma get_text_strip_blank (el : element) :
  blank_text el = true -> get_text_strip el = "".
Proof.
  unfold blank_text, get_text_strip, all_strings_strip.
  generalize
    (filter
       (fun ks => existsb (kind_eqb (fst ks))
                    (interesting_string_types (head el)))
       (flat_map strings_of (contents el))) as l.
  induction l as [|[k s] l IH]; intros H; simpl in *.
  - reflexivity.
  - apply andb_true_iff in H. destruct H as [Hs Hl].
    rewrite (strip_blank _ Hs). simpl. apply IH. exact Hl.
Qed.

(** C9: the rubric check looks at the presence of the rubric link only.
    For a card whose rubric link holds no text, or white space only, the
    rubric is the empty string; whether the card is kept is decided by the
    primary link and its inner content block alone; and a card that is
    kept has its record appended to the list under the key [""]. *)
Theorem blank_rubric_is_filed_under_the_empty_key
        (item rubric_link : element) (result : dict) :
  select_one item SEL_RUBRIC = Some rubric_link ->
  blank_text rubric_link = true ->
  get_text_strip rubric_link = ""
  /\ accepted item
     = match info_of item with Some _ => true | None => false end
  /\ (accepted item = true ->
      exists n result',
        extract_item item = Ok (Some ("", n))
        /\ loop_body result item = Ok result'
        /\ lookup "" result' = Some (items_at "" result ++ [n])%list
        /\ dict_contains "" result' = true).
Proof.
  intros Hr Hb.
  pose proof (get_text_strip_blank _ Hb) as Ht.
  split; [exact Ht | ]. split.
  { unfold accepted, info_of. rewrite Hr.
    destruct (select_one item SEL_LINK); reflexivity. }
  intros Hg. rewrite <- extracted_accepted in Hg.
  pose proof (extract_item_ok item) as He.
  destruct (extracted item) as [[c n]|] eqn:Hx; [ | discriminate].
  destruct (extract_item_record _ _ _ He)
    as (r & l & i & d & Hr' & _ & _ & _ & Hc & _).
  rewrite Hr in Hr'. inversion Hr'. subst r. rewrite Ht in Hc. subst c.
  exists n, (group_insert result "" n).
  split; [exact He | ].
  split; [rewrite loop_body_eq, Hx; reflexivity | ].
  assert (Hl : lookup "" (group_insert result "" n)
               = Some (items_at "" result ++ [n])%list)
    by (unfold group_insert; rewrite lookup_setitem; reflexivity).
  split; [exact Hl | ].
  unfold dict_contains. rewrite Hl. reflexivity.
Qed.

Lemma blank_rubric_is_filed_under_the_empty_key_witness :
  select_one item_blank_rubric SEL_RUBRIC = Some (rubric_of item_blank_rubric)
  /\ blank_text (rubric_of item_blank_rubric) = true
  /\ accepted item_blank_rubric = true
  /\ get_text_strip (rubric_of item_blank_rubric) = "".
Proof.
  assert (H1 : select_one item_blank_rubric SEL_RUBRIC
               = Some (rubric_of item_blank_rubric))
    by (vm_compute; reflexivity).
  assert (H2 : blank_text (rubric_of item_blank_rubric) = true)
    by (vm_compute; reflexivity).
  split; [exact H1 | ]. split; [exact H2 | ].
  split; [vm_compute; reflexivity | ].
  exact (proj1 (blank_rubric_is_filed_under_the_empty_key
                  item_blank_rubric (rubric_of item_blank_rubric) [] H1 H2)).
Defined.

(** *** The message of [load_html] *)

(** C10: whatever path is checked, when nothing exists there [load_html]
    raises [FileNotFoundError] with one and the same message, which names
    ['news.html'] and tells how to obtain it. *)
Theorem not_found_message_ignores_the_path (path : string) (w : World) :
  fs w path = None ->
  load_html path w = (Raise (FileNotFoundError NOT_FOUND_MESSAGE), w)
  /\ occurs "'news.html'" NOT_FOUND_MESSAGE = true
  /\ occurs "WebArchive" NOT_FOUND_MESSAGE = true
  /\ (forall other, fs w other = None -> load_html other w = load_html path w).
Proof.
  intros H.
  assert (Hm : forall p, fs w p = None ->
                         load_html p w
                         = (Raise (FileNotFoundError NOT_FOUND_MESSAGE), w))
    by (intros p Hp; rewrite load_html_cases, Hp; reflexivity).
  split; [apply Hm; exact H | ].
  split; [vm_compute; reflexivity | ].
  split; [vm_compute; reflexivity | ].
  intros other Ho. rewrite (Hm other Ho), (Hm path H). reflexivity.
Qed.

Lemma not_found_message_ignores_the_path_witness :
  fs empty_world "archive/page.html" = None
  /\ load_html "archive/page.html" empty_world
     = (Raise (FileNotFoundError NOT_FOUND_MESSAGE), empty_world)
  /\ occurs "archive/page.html" NOT_FOUND_MESSAGE = false.
Proof.
  assert (H : fs empty_world "archive/page.html" = None) by reflexivity.
  split; [exact H | ].
  split; [ | vm_compute; reflexivity].
  exact (proj1 (not_found_message_ignores_the_path
                  "archive/page.html" empty_world H)).
Defined.

End Claims.

(* ================================================================= *)
(** ** Further properties of [parse_news], [load_html] and [main] *)

Module Extras.

Import Soup News Spec Facts Samples Program Worlds Report.

(** *** Helper lemmas *)

Lemma filter_length_lt {A : Type} (p : A -> bool) (l : list A) (x : A) :
  In x l -> p x = false -> List.length (filter p l) < List.length l.
Proof.
  induction l as [|y l IH]; simpl.
  - intros [].
  - intros [-> | Hin] Hx.
    + rewrite Hx. pose proof (filter_length_le p l). lia.
    + specialize (IH Hin Hx). destruct (p y); simpl; lia.
Qed.

Lemma filter_all {A : Type} (p : A -> bool) (l : list A) :
  forallb p l = true -> filter p l = l.
Proof.
  induction l as [|y l IH]; simpl.
  - reflexivity.
  - intros H. apply andb_true_iff in H. destruct H as [Hy Hl].
    rewrite Hy, (IH Hl). reflexivity.
Qed.

Lemma grouped_nonempty (pairs : list (string * news_item)) (acc : dict) :
  (forall c items, In (c, items) acc -> items <> []) ->
  forall c items, In (c, items) (grouped pairs acc) -> items <> [].
Proof.
  revert acc. induction pairs as [|[c0 n0] pairs IH]; intros acc Hacc.
  - exact Hacc.
  - simpl. apply IH. intros c items Hin.
    unfold group_insert in Hin. simpl in Hin.
    apply In_setitem in Hin. destruct Hin as [[_ ->] | Hin].
    + intros H. apply app_eq_nil in H. destruct H as [_ H]. discriminate.
    + apply (Hacc c). exact Hin.
Qed.

Lemma keys_length_le_count (result : dict) :
  (forall c items, In (c, items) result -> items <> []) ->
  List.length result <= count_records result.
Proof.
  unfold count_records.
  induction result as [|[c items] result IH]; simpl; intros H.
  - lia.
  - assert (Hi : items <> []) by (apply (H c); left; reflexivity).
    assert (Hr : List.length result
                 <= list_sum (map (fun kv => List.length (snd kv)) result))
      by (apply IH; intros c' i' Hin; apply (H c'); right; exact Hin).
    destruct items; [contradiction | simpl; lia].
Qed.

Lemma first_seen_app_prefix (l1 l2 : list string) :
  prefix_of (first_seen l1) (first_seen (l1 ++ l2)).
Proof.
  induction l2 as [|x l2 IH] using rev_ind.
  - exists []. rewrite !app_nil_r. reflexivity.
  - destruct IH as [rest IH].
    rewrite app_assoc, first_seen_snoc, IH.
    destruct (mem x (l1 ++ l2)).
    + exists rest. reflexivity.
    + exists (rest ++ [x])%list. rewrite app_assoc. reflexivity.
Qed.

Lemma items_of_app (k : string) (p1 p2 : list (string * news_item)) :
  items_of k (p1 ++ p2) = (items_of k p1 ++ items_of k p2)%list.
Proof. unfold items_of. rewrite filter_app, map_app. reflexivity. Qed.

Lemma pairs_of_app (xs ys : list element) :
  pairs_of (xs ++ ys) = (pairs_of xs ++ pairs_of ys)%list.
Proof. unfold pairs_of. apply flat_map_app. Qed.

Lemma select_contents_app (ps : list tag_head) (h : tag_head)
      (c1 c2 : list node) (sel : selector) :
  select (mk_element ps h (c1 ++ c2)) sel
  = (select (mk_element ps h c1) sel ++ select (mk_element ps h c2) sel)%list.
Proof.
  unfold select, descendants. simpl.
  rewrite flat_map_app, filter_app. reflexivity.
Qed.

(** *** Counting *)

(** X1: the result holds at most as many records as the document has
    cards; it holds fewer as soon as one card fails the rubric, link or
    content-block check, and exactly as many when every card passes. *)
Theorem records_are_bounded_by_the_cards (soup : element) :
  exists result,
    parse_soup soup = Ok result
    /\ count_records result <= List.length (select soup SEL_ITEM)
    /\ ((exists item,
            In item (select soup SEL_ITEM) /\ accepted item = false) ->
        count_records result < List.length (select soup SEL_ITEM))
    /\ (forallb accepted (select soup SEL_ITEM) = true ->
        count_records result = List.length (select soup SEL_ITEM)).
Proof.
  exists (grouped (extract soup) []).
  split; [apply parse_soup_eq | ].
  assert (Hc : count_records (grouped (extract soup) [])
               = List.length (filter accepted (select soup SEL_ITEM))).
  { rewrite grouped_count. unfold extract. rewrite pairs_of_length.
    reflexivity. }
  rewrite Hc. split; [apply filter_length_le | ]. split.
  - intros [item [Hin Ha]]. apply (filter_length_lt _ _ item); assumption.
  - intros H. rewrite (filter_all _ _ H). reflexivity.
Qed.

(** X2: no rubric of the result has an empty list: a key enters the
    mapping only together with its first record.  So the mapping has at
    most as many rubrics as records. *)
Theorem every_rubric_has_a_record (soup : element) :
  exists result,
    parse_soup soup = Ok result
    /\ (forall c items, In (c, items) result -> items <> [])
    /\ (forall c, dict_contains c result = true ->
                  exists n rest, lookup c result = Some (n :: rest))
    /\ List.length result <= count_records result.
Proof.
  exists (grouped (extract soup) []).
  split; [apply parse_soup_eq | ].
  assert (H : forall c items,
             In (c, items) (grouped (extract soup) []) -> items <> [])
    by (apply grouped_nonempty; intros c items []).
  split; [exact H | ]. split.
  - intros c Hc. apply contains_lookup in Hc. destruct Hc as [items Hl].
    pose proof (H c items (lookup_In _ _ _ Hl)) as Hne.
    destruct items as [|n rest]; [contradiction | ].
    exists n, rest. exact Hl.
  - apply keys_length_le_count. exact H.
Qed.

(** X3: the loop only appends.  When more content follows inside a tag,
    the rubrics found so far keep their places at the front of the key
    order, and the list of every rubric found so far is an initial
    segment of its list in the larger result. *)
Theorem later_cards_only_append
        (ps : list tag_head) (h : tag_head) (c1 c2 : list node) :
  exists r1 r2,
    parse_soup (mk_element ps h c1) = Ok r1
    /\ parse_soup (mk_element ps h (c1 ++ c2)) = Ok r2
    /\ prefix_of (map fst r1) (map fst r2)
    /\ (forall k items,
           lookup k r1 = Some items ->
           exists more, lookup k r2 = Some (items ++ more)%list)
    /\ for_each loop_body (select (mk_element ps h c2) SEL_ITEM) r1 = Ok r2.
Proof.
  exists (grouped (extract (mk_element ps h c1)) []).
  exists (grouped (extract (mk_element ps h (c1 ++ c2))) []).
  split; [apply parse_soup_eq | ]. split; [apply parse_soup_eq | ].
  unfold extract. rewrite select_contents_app, pairs_of_app.
  set (p1 := pairs_of (select (mk_element ps h c1) SEL_ITEM)).
  set (p2 := pairs_of (select (mk_element ps h c2) SEL_ITEM)).
  split.
  { rewrite !grouped_keys, map_app. apply first_seen_app_prefix. }
  split.
  - intros k items. rewrite !grouped_lookup, map_app, mem_app.
    destruct (mem k (map fst p1)); [ | discriminate].
    intros H. inversion H. subst items. simpl.
    exists (items_of k p2). rewrite items_of_app. reflexivity.
  - rewrite for_each_loop_body. fold p2. unfold grouped.
    rewrite fold_left_app. reflexivity.
Qed.

(** *** The run of [main] *)

Lemma for_io_prints {A : Type} (body : A -> IO unit) (line : A -> string)
      (xs : list A) :
  (forall x w, body x w = (Ok tt, mk_world (fs w) (stdout w ++ [line x]))) ->
  forall w,
    for_io body xs w = (Ok tt, mk_world (fs w) (stdout w ++ map line xs)).
Proof.
  intros Hb. induction xs as [|x xs IH]; intros w; simpl.
  - unfold ret. rewrite app_nil_r. destruct w; reflexivity.
  - unfold bind. rewrite Hb, IH. simpl. rewrite <- app_assoc. reflexivity.
Qed.

Lemma parse_news_parsed (BeautifulSoup : string -> list node) (html : string) :
  parse_news BeautifulSoup html = Ok (parsed BeautifulSoup html).
Proof. unfold parse_news, parsed. apply parse_soup_eq. Qed.

(** The outcomes of [main], by what the working directory holds. *)
Lemma main_cases (BeautifulSoup : string -> list node)
      (json_dumps : dict -> string) (resolve : string -> string) (w : World) :
  main BeautifulSoup json_dumps resolve w
  = match fs w INPUT_FILE with
    | None => (Raise (FileNotFoundError NOT_FOUND_MESSAGE), w)
    | Some Directory => (Raise (IsADirectoryError INPUT_FILE), w)
    | Some (RegularFile data) =>
      if PyStr.valid_utf8 data then
        let result := parsed BeautifulSoup (PyStr.universal_newlines data) in
        match fs w OUTPUT_FILE with
        | Some Directory =>
          (Raise (IsADirectoryError OUTPUT_FILE),
           mk_world (fs w) (stdout w ++ report_lines json_dumps result))
        | _ =>
          (Ok tt,
           mk_world (fs_with (fs w) OUTPUT_FILE (json_dumps result))
                    (stdout w ++ report_lines json_dumps result
                     ++ [saved_line resolve]))
        end
      else (Raise UnicodeDecodeError, w)
    end.
Proof.
  unfold main. unfold bind at 1. rewrite Claims.load_html_cases.
  destruct (fs w INPUT_FILE) as [[|data]|] eqn:Hin; try reflexivity.
  destruct (PyStr.valid_utf8 data); [ | reflexivity].
  unfold bind at 1. unfold lift. rewrite parse_news_parsed.
  set (result := parsed BeautifulSoup (PyStr.universal_newlines data)).
  unfold bind at 1. unfold print at 1.
  unfold bind at 1.
  rewrite (for_io_prints _ summary_line).
  2:{ intros [c items] w0. reflexivity. }
  cbn [fs stdout].
  unfold bind at 1. unfold print at 1. cbn [fs stdout].
  unfold bind at 1. unfold print at 1. cbn [fs stdout].
  unfold bind at 1. unfold write_text at 1. cbn [fs stdout].
  assert (Hout : ((((stdout w ++ ["Найдено новостей по рубрикам:"])
                    ++ map summary_line result)
                   ++ [(NL ++ "Структура данных:")%string])
                  ++ [json_dumps result])%list
                 = (stdout w ++ report_lines json_dumps result)%list).
  { unfold report_lines. rewrite <- !app_assoc. reflexivity. }
  fold OUTPUT_FILE.
  destruct (fs w OUTPUT_FILE) as [[|old]|] eqn:Hout_file.
  - rewrite Hout. reflexivity.
  - unfold print. cbn [fs stdout]. rewrite Hout, <- app_assoc. reflexivity.
  - unfold print. cbn [fs stdout]. rewrite Hout, <- app_assoc. reflexivity.
Qed.

(** X4: [main] ends normally only when [news.html] is a file whose
    content is valid UTF-8 and [news_parsed.json] is not a directory. *)
Theorem main_ends_normally_only_with_a_loadable_page
        (BeautifulSoup : string -> list node) (json_dumps : dict -> string)
        (resolve : string -> string) (w w' : World) :
  main BeautifulSoup json_dumps resolve w = (Ok tt, w') ->
  (exists data,
      fs w INPUT_FILE = Some (RegularFile data)
      /\ PyStr.valid_utf8 data = true)
  /\ fs w OUTPUT_FILE <> Some Directory.
Proof.
  rewrite main_cases. intros H.
  destruct (fs w INPUT_FILE) as [[|data]|]; try discriminate.
  destruct (PyStr.valid_utf8 data) eqn:Hv; [ | discriminate].
  split; [exists data; auto | ].
  destruct (fs w OUTPUT_FILE) as [[|old]|]; discriminate.
Qed.

Lemma main_ends_normally_only_with_a_loadable_page_witness :
  exists w',
    main sample_parser sample_dumps sample_resolve crlf_world = (Ok tt, w')
    /\ fs crlf_world OUTPUT_FILE <> Some Directory.
Proof.
  destruct (main sample_parser sample_dumps sample_resolve crlf_world)
    as [[[]|e] w'] eqn:H.
  - exists w'. split; [reflexivity | ].
    exact (proj2 (main_ends_normally_only_with_a_loadable_page
                    sample_parser sample_dumps sample_resolve
                    crlf_world w' H)).
  - exfalso. rewrite main_cases in H. vm_compute in H. discriminate.
Defined.

(** X5: when [main] ends normally, the output file holds the serialized
    mapping of the text of [news.html], which is also the text of the dump
    that was printed; the console has got the heading, one line per rubric
    in the order of the mapping with the number of its records, the dump
    and the closing line, after what was there before. *)
Theorem main_writes_what_it_prints
        (BeautifulSoup : string -> list node) (json_dumps : dict -> string)
        (resolve : string -> string) (w : World) (data : string) :
  fs w INPUT_FILE = Some (RegularFile data) ->
  PyStr.valid_utf8 data = true ->
  fs w OUTPUT_FILE <> Some Directory ->
  exists w',
    main BeautifulSoup json_dumps resolve w = (Ok tt, w')
    /\ parse_news BeautifulSoup (PyStr.universal_newlines data)
       = Ok (parsed BeautifulSoup (PyStr.universal_newlines data))
    /\ fs w' OUTPUT_FILE
       = Some (RegularFile
                 (json_dumps
                    (parsed BeautifulSoup (PyStr.universal_newlines data))))
    /\ stdout w'
       = (stdout w
          ++ report_lines json_dumps
               (parsed BeautifulSoup (PyStr.universal_newlines data))
          ++ [saved_line resolve])%list.
Proof.
  intros Hin Hv Hout. rewrite main_cases, Hin, Hv.
  eexists. split.
  - destruct (fs w OUTPUT_FILE) as [[|old]|]; [contradiction | | ];
      reflexivity.
  - split; [apply parse_news_parsed | ]. split; reflexivity.
Qed.

Lemma main_writes_what_it_prints_witness :
  fs crlf_world INPUT_FILE
  = Some (RegularFile
            ("<html>" ++ String PyStr.CR (String PyStr.LF "") ++ "</html>"))
  /\ exists w',
       main sample_parser sample_dumps sample_resolve crlf_world = (Ok tt, w')
       /\ fs w' OUTPUT_FILE = Some (RegularFile "{Society, Army}")
       /\ stdout w'
          = ["Найдено новостей по рубрикам:"; "- Society: 1"; "- Army: 1";
             NL ++ "Структура данных:"; "{Society, Army}";
             NL ++ "Результат сохранён в /srv/news/news_parsed.json"].
Proof.
  assert (Hin : fs crlf_world INPUT_FILE
                = Some (RegularFile
                          ("<html>" ++ String PyStr.CR (String PyStr.LF "")
                           ++ "</html>")))
    by reflexivity.
  split; [exact Hin | ].
  destruct (main_writes_what_it_prints
              sample_parser sample_dumps sample_resolve crlf_world _ Hin
              eq_refl)
    as (w' & Hm & _ & Hf & Hs).
  { vm_compute. discriminate. }
  exists w'. split; [exact Hm | ]. split.
  - rewrite Hf. vm_compute. reflexivity.
  - rewrite Hs. vm_compute. reflexivity.
Defined.

(** X6: whatever the outcome, [main] changes no path of the file system
    other than [news_parsed.json] (the input file stays as it was) and
    keeps what the console held before. *)
Theorem main_touches_only_the_output_file
        (BeautifulSoup : string -> list node) (json_dumps : dict -> string)
        (resolve : string -> string) (w : World) (p : string) :
  p <> OUTPUT_FILE ->
  fs (snd (main BeautifulSoup json_dumps resolve w)) p = fs w p
  /\ fs (snd (main BeautifulSoup json_dumps resolve w)) INPUT_FILE
     = fs w INPUT_FILE
  /\ prefix_of (stdout w)
       (stdout (snd (main BeautifulSoup json_dumps resolve w))).
Proof.
  intros Hp. rewrite main_cases.
  assert (Hw : prefix_of (stdout w) (stdout w))
    by (exists []; rewrite app_nil_r; reflexivity).
  assert (Hi : String.eqb INPUT_FILE OUTPUT_FILE = false) by reflexivity.
  apply String.eqb_neq in Hp.
  destruct (fs w INPUT_FILE) as [[|data]|] eqn:Hin;
    [simpl; auto | | simpl; auto].
  destruct (PyStr.valid_utf8 data); [ | simpl; auto].
  cbv zeta.
  destruct (fs w OUTPUT_FILE) as [[|old]|]; simpl; unfold fs_with;
    rewrite ?Hp, ?Hi; (split; [ | split]);
    try reflexivity; try assumption; eexists; reflexivity.
Qed.

Lemma main_touches_only_the_output_file_witness :
  "notes.txt" <> OUTPUT_FILE
  /\ fs (snd (main sample_parser sample_dumps sample_resolve crlf_world))
        "notes.txt"
     = fs crlf_world "notes.txt"
  /\ fs (snd (main sample_parser sample_dumps sample_resolve crlf_world))
        INPUT_FILE
     = fs crlf_world INPUT_FILE.
Proof.
  assert (H : "notes.txt" <> OUTPUT_FILE) by (vm_compute; discriminate).
  split; [exact H | ].
  destruct (main_touches_only_the_output_file
              sample_parser sample_dumps sample_resolve crlf_world
              "notes.txt" H) as (H1 & H2 & _).
  split; [exact H1 | exact H2].
Defined.

(** X7: when [news_parsed.json] is a directory, [main] raises
    [IsADirectoryError] only after it has printed the summary and the
    dump: the console holds the whole report except the closing line, and
    the file system is as it was. *)
Theorem main_fails_after_the_report_when_output_is_a_directory
        (BeautifulSoup : string -> list node) (json_dumps : dict -> string)
        (resolve : string -> string) (w : World) (data : string) :
  fs w INPUT_FILE = Some (RegularFile data) ->
  PyStr.valid_utf8 data = true ->
  fs w OUTPUT_FILE = Some Directory ->
  main BeautifulSoup json_dumps resolve w
  = (Raise (IsADirectoryError OUTPUT_FILE),
     mk_world (fs w)
       (stdout w
        ++ report_lines json_dumps
             (parsed BeautifulSoup (PyStr.universal_newlines data)))).
Proof.
  intros Hin Hv Hout. rewrite main_cases, Hin, Hv, Hout. reflexivity.
Qed.

Lemma main_fails_after_the_report_when_output_is_a_directory_witness :
  fs output_is_directory_world OUTPUT_FILE = Some Directory
  /\ fst (main sample_parser sample_dumps sample_resolve
            output_is_directory_world)
     = Raise (IsADirectoryError "news_parsed.json")
  /\ stdout (snd (main sample_parser sample_dumps sample_resolve
                    output_is_directory_world))
     = ["earlier output"; "Найдено новостей по рубрикам:"; "- Society: 1";
        "- Army: 1"; NL ++ "Структура данных:"; "{Society, Army}"].
Proof.
  assert (Hout : fs output_is_directory_world OUTPUT_FILE = Some Directory)
    by reflexivity.
  split; [exact Hout | ].
  rewrite (main_fails_after_the_report_when_output_is_a_directory
             sample_parser sample_dumps sample_resolve
             output_is_directory_world _ eq_refl eq_refl Hout).
  split; [reflexivity | vm_compute; reflexivity].
Defined.

(** X8: a second run after a run that ended normally ends normally as
    well, leaves every path of the file system as the first run left it
    and prints the same lines once more. *)
Theorem main_can_be_run_again
        (BeautifulSoup : string -> list node) (json_dumps : dict -> string)
        (resolve : string -> string) (w w1 : World) :
  main BeautifulSoup json_dumps resolve w = (Ok tt, w1) ->
  exists w2 lines,
    main BeautifulSoup json_dumps resolve w1 = (Ok tt, w2)
    /\ (forall p, fs w2 p = fs w1 p)
    /\ stdout w1 = (stdout w ++ lines)%list
    /\ stdout w2 = (stdout w1 ++ lines)%list.
Proof.
  intros H. rewrite main_cases in H.
  destruct (fs w INPUT_FILE) as [[|data]|] eqn:Hin; try discriminate.
  destruct (PyStr.valid_utf8 data) eqn:Hv; [ | discriminate].
  set (result := parsed BeautifulSoup (PyStr.universal_newlines data)) in *.
  assert (Hw1 : w1 = mk_world (fs_with (fs w) OUTPUT_FILE (json_dumps result))
                       (stdout w ++ report_lines json_dumps result
                        ++ [saved_line resolve])).
  { cbv zeta in H.
    destruct (fs w OUTPUT_FILE) as [[|old]|]; [discriminate | | ];
      inversion H; reflexivity. }
  assert (Hin1 : fs w1 INPUT_FILE = Some (RegularFile data)).
  { rewrite Hw1. simpl. unfold fs_with.
    replace (String.eqb INPUT_FILE OUTPUT_FILE) with false by reflexivity.
    exact Hin. }
  assert (Hout1 : fs w1 OUTPUT_FILE
                  = Some (RegularFile (json_dumps result))).
  { rewrite Hw1. simpl. unfold fs_with. rewrite String.eqb_refl.
    reflexivity. }
  exists (mk_world (fs_with (fs w1) OUTPUT_FILE (json_dumps result))
            (stdout w1 ++ report_lines json_dumps result
             ++ [saved_line resolve])).
  exists (report_lines json_dumps result ++ [saved_line resolve])%list.
  split.
  { rewrite main_cases, Hin1, Hv, Hout1. reflexivity. }
  split.
  { intros p. simpl. unfold fs_with.
    destruct (String.eqb p OUTPUT_FILE) eqn:Hp; [ | reflexivity].
    apply String.eqb_eq in Hp. subst p. symmetry. exact Hout1. }
  split; [rewrite Hw1; reflexivity | reflexivity].
Qed.

Lemma main_can_be_run_again_witness :
  exists w1 w2,
    main sample_parser sample_dumps sample_resolve crlf_world = (Ok tt, w1)
    /\ main sample_parser sample_dumps sample_resolve w1 = (Ok tt, w2)
    /\ fs w2 OUTPUT_FILE = fs w1 OUTPUT_FILE.
Proof.
  destruct (main sample_parser sample_dumps sample_resolve crlf_world)
    as [[[]|e] w1] eqn:H1.
  - destruct (main_can_be_run_again
                sample_parser sample_dumps sample_resolve crlf_world w1 H1)
      as (w2 & lines & H2 & Hfs & _).
    exists w1, w2. split; [reflexivity | ]. split; [exact H2 | apply Hfs].
  - exfalso. rewrite main_cases in H1. vm_compute in H1. discriminate.
Defined.

(** *** The text that [load_html] returns *)

Lemma universal_newlines_no_cr (s : string) :
  has_cr (PyStr.universal_newlines s) = false
  /\ forall c, has_cr (PyStr.universal_newlines (String c s)) = false.
Proof.
  induction s as [|c' s [IH1 IH2]].
  - split; [reflexivity | ]. intros c. simpl.
    destruct (Ascii.eqb c PyStr.CR) eqn:Hc; simpl; [reflexivity | ].
    rewrite Hc. reflexivity.
  - split; [apply IH2 | ]. intros c.
    change (PyStr.universal_newlines (String c (String c' s)))
      with (if Ascii.eqb c PyStr.CR
            then if Ascii.eqb c' PyStr.LF
                 then String PyStr.LF (PyStr.universal_newlines s)
                 else String PyStr.LF
                        (PyStr.universal_newlines (String c' s))
            else String c (PyStr.universal_newlines (String c' s))).
    assert (Hs : forall a x,
               has_cr (String a x) = Ascii.eqb a PyStr.CR || has_cr x)
      by reflexivity.
    destruct (Ascii.eqb c PyStr.CR) eqn:Hc.
    + destruct (Ascii.eqb c' PyStr.LF); rewrite Hs.
      * rewrite IH1. reflexivity.
      * rewrite (IH2 c'). reflexivity.
    + rewrite Hs, Hc, (IH2 c'). reflexivity.
Qed.

(** X9: when [load_html] returns a text, a regular file with valid UTF-8
    content exists at the path, the text is the content of that file with
    its line ends turned into line feeds, so it holds no carriage return,
    and the world is left as it was. *)
Theorem load_html_returns_the_decoded_text
        (path : string) (w w' : World) (text : string) :
  load_html path w = (Ok text, w') ->
  w' = w
  /\ has_cr text = false
  /\ exists data,
       fs w path = Some (RegularFile data)
       /\ PyStr.valid_utf8 data = true
       /\ text = PyStr.universal_newlines data.
Proof.
  rewrite Claims.load_html_cases.
  destruct (fs w path) as [[|data]|]; try discriminate.
  destruct (PyStr.valid_utf8 data) eqn:Hv; [ | discriminate].
  intros H. inversion H. subst.
  split; [reflexivity | ].
  split; [apply universal_newlines_no_cr | ].
  exists data. auto.
Qed.

Lemma load_html_returns_the_decoded_text_witness :
  load_html "news.html" crlf_world
  = (Ok ("<html>" ++ String PyStr.LF "" ++ "</html>"), crlf_world)
  /\ has_cr ("<html>" ++ String PyStr.LF "" ++ "</html>") = false.
Proof.
  assert (H : load_html "news.html" crlf_world
              = (Ok ("<html>" ++ String PyStr.LF "" ++ "</html>"), crlf_world))
    by reflexivity.
  split; [exact H | ].
  exact (proj1 (proj2 (load_html_returns_the_decoded_text
                         "news.html" crlf_world crlf_world _ H))).
Defined.

Lemma universal_newlines_without_cr (s : string) :
  has_cr s = false -> PyStr.universal_newlines s = s.
Proof.
  induction s as [|c s IH]; simpl.
  - reflexivity.
  - intros H. apply orb_false_iff in H. destruct H as [Hc Hs].
    rewrite Hc, (IH Hs). reflexivity.
Qed.

(** X10: the file that [main] has written loads back.  After a run that
    ended normally, [load_html] on [news_parsed.json] returns the
    serialized mapping as it was written, provided the serializer gave
    valid UTF-8 without carriage returns. *)
Theorem written_report_loads_back
        (BeautifulSoup : string -> list node) (json_dumps : dict -> string)
        (resolve : string -> string) (w w1 : World) :
  main BeautifulSoup json_dumps resolve w = (Ok tt, w1) ->
  exists html,
    load_html INPUT_FILE w = (Ok html, w)
    /\ fs w1 OUTPUT_FILE
       = Some (RegularFile (json_dumps (parsed BeautifulSoup html)))
    /\ (PyStr.valid_utf8 (json_dumps (parsed BeautifulSoup html)) = true ->
        has_cr (json_dumps (parsed BeautifulSoup html)) = false ->
        load_html OUTPUT_FILE w1
        = (Ok (json_dumps (parsed BeautifulSoup html)), w1)).
Proof.
  intros H. rewrite main_cases in H.
  rewrite Claims.load_html_cases.
  destruct (fs w INPUT_FILE) as [[|data]|] eqn:Hin; try discriminate.
  destruct (PyStr.valid_utf8 data) eqn:Hv; [ | discriminate].
  exists (PyStr.universal_newlines data).
  split; [reflexivity | ].
  cbv zeta in H.
  assert (Hf : fs w1 OUTPUT_FILE
               = Some (RegularFile
                         (json_dumps
                            (parsed BeautifulSoup
                               (PyStr.universal_newlines data))))).
  { destruct (fs w OUTPUT_FILE) as [[|old]|]; [discriminate | | ];
      inversion H; simpl; unfold fs_with; rewrite String.eqb_refl;
      reflexivity. }
  split; [exact Hf | ].
  intros Hvalid Hcr.
  rewrite Claims.load_html_cases, Hf, Hvalid.
  rewrite (universal_newlines_without_cr _ Hcr). reflexivity.
Qed.

Lemma written_report_loads_back_witness :
  exists w1,
    main sample_parser sample_dumps sample_resolve crlf_world = (Ok tt, w1)
    /\ load_html OUTPUT_FILE w1 = (Ok "{Society, Army}", w1).
Proof.
  destruct (main sample_parser sample_dumps sample_resolve crlf_world)
    as [[[]|e] w1] eqn:H1.
  - destruct (written_report_loads_back
                sample_parser sample_dumps sample_resolve crlf_world w1 H1)
      as (html & _ & _ & Hload).
    exists w1. split; [reflexivity | ].
    apply Hload; vm_compute; reflexivity.
  - exfalso. rewrite main_cases in H1. vm_compute in H1. discriminate.
Defined.

End Extras.

(* ================================================================= *)
(** ** What a call of [parse_news] leaves behind *)

Module Purity.

Import Soup News Spec Facts Program Report.

(** *** The store *)

Lemma update_length {A : Type} (n : nat) (x : A) (l : list A) :
  List.length (Store.update n x l) = List.length l.
Proof.
  revert n. induction l as [|y l IH]; intros n; simpl.
  - reflexivity.
  - destruct n; simpl; [reflexivity | rewrite IH; reflexivity].
Qed.

Lemma nth_update_same {A : Type} (n : nat) (x d : A) (l : list A) :
  n < List.length l -> nth n (Store.update n x l) d = x.
Proof.
  revert n. induction l as [|y l IH]; intros n; simpl.
  - lia.
  - destruct n; simpl; [reflexivity | ]. intros H. apply IH. lia.
Qed.

Lemma nth_update_other {A : Type} (m n : nat) (x d : A) (l : list A) :
  m <> n -> nth m (Store.update n x l) d = nth m l d.
Proof.
  revert m n. induction l as [|y l IH]; intros m n H; simpl.
  - reflexivity.
  - destruct n, m; simpl; try reflexivity; try contradiction.
    apply IH. lia.
Qed.

Lemma update_update {A : Type} (n : nat) (x y : A) (l : list A) :
  Store.update n y (Store.update n x l) = Store.update n y l.
Proof.
  revert n. induction l as [|z l IH]; intros n; simpl.
  - reflexivity.
  - destruct n; simpl; [reflexivity | rewrite IH; reflexivity].
Qed.

Lemma update_nth {A : Type} (n : nat) (d : A) (l : list A) :
  Store.update n (nth n l d) l = l.
Proof.
  revert n. induction l as [|z l IH]; intros n; simpl.
  - reflexivity.
  - destruct n; simpl; [reflexivity | rewrite IH; reflexivity].
Qed.

Lemma update_last {A : Type} (x y : A) (l : list A) :
  Store.update (List.length l) x (l ++ [y]) = (l ++ [x])%list.
Proof.
  induction l as [|z l IH]; simpl; [reflexivity | rewrite IH; reflexivity].
Qed.

(** *** The loop over the store *)

Lemma add_item_run (st : Store.Interp) (a : Store.addr) (c : string)
      (n : news_item) :
  a < List.length (Store.heap st) ->
  Store.add_item a c n st
  = (Ok tt,
     Store.mk_interp (Store.io st)
       (Store.update a (group_insert (Store.deref st a) c n)
          (Store.heap st))).
Proof.
  intros Ha.
  cbv [Store.add_item Store.bind Store.contains Store.getitem Store.setitem
       Store.load Store.store Store.ret Store.lift_exc].
  unfold group_insert, items_at.
  destruct (dict_contains c (Store.deref st a)) eqn:Hc; cbv [negb].
  - destruct (contains_lookup _ _ Hc) as [v Hv].
    unfold dict_getitem. rewrite Hv. reflexivity.
  - assert (Hd : Store.deref
                   (Store.mk_interp (Store.io st)
                      (Store.update a
                         (dict_setitem c [] (Store.deref st a))
                         (Store.heap st))) a
                 = dict_setitem c [] (Store.deref st a))
      by (unfold Store.deref at 1; simpl; apply nth_update_same; exact Ha).
    rewrite Hd. unfold dict_getitem.
    rewrite lookup_setitem, String.eqb_refl.
    cbv [Store.io Store.heap].
    rewrite update_update, setitem_setitem.
    unfold dict_contains in Hc.
    destruct (lookup c (Store.deref st a)); [discriminate | reflexivity].
Qed.

Lemma loop_run (items : list element) (st : Store.Interp) (a : Store.addr) :
  a < List.length (Store.heap st) ->
  Store.for_py (Store.loop_body a) items st
  = (Ok tt,
     Store.mk_interp (Store.io st)
       (Store.update a (grouped (pairs_of items) (Store.deref st a))
          (Store.heap st))).
Proof.
  revert st. induction items as [|item items IH]; intros st Ha.
  - simpl. unfold Store.ret, Store.deref. rewrite update_nth.
    destruct st; reflexivity.
  - simpl Store.for_py. unfold Store.bind at 1.
    unfold Store.loop_body, Store.bind at 1, Store.lift_exc.
    rewrite extract_item_ok, pairs_of_cons.
    destruct (extracted item) as [[c n]|].
    + rewrite (add_item_run st a c n Ha).
      rewrite IH by (simpl; rewrite update_length; exact Ha).
      unfold Store.deref. simpl.
      rewrite nth_update_same by exact Ha.
      rewrite update_update. reflexivity.
    + unfold Store.ret. rewrite IH by exact Ha. reflexivity.
Qed.

Lemma parse_soup_run (soup : element) (st : Store.Interp) :
  Store.parse_soup soup st
  = (Ok (List.length (Store.heap st)),
     Store.mk_interp (Store.io st)
       (Store.heap st ++ [grouped (extract soup) []])).
Proof.
  unfold Store.parse_soup, Store.bind at 1, Store.new_dict.
  unfold Store.bind at 1.
  rewrite loop_run by (simpl; rewrite length_app; simpl; lia).
  unfold Store.ret, Store.deref. simpl.
  rewrite nth_middle, update_last. reflexivity.
Qed.

Example parse_news_in_a_busy_state :
  exists st',
    Store.parse_news sample_parser "<html></html>" Store.busy_state
    = (Ok 2, st')
    /\ map fst (Store.deref st' 2) = ["Society"; "Army"]
    /\ Store.deref st' 0 = Store.deref Store.busy_state 0
    /\ Store.io st' = Store.io Store.busy_state.
Proof. eexists. repeat split. Qed.

(** C5: a call of [parse_news] keeps no state and has no effect besides
    the mapping it creates.  From every interpreter state the call
    returns a reference to a new object; the mapping behind it is the
    same whatever the state was (it is the mapping of the pure reading of
    the loop); a second call on the same text returns another object with
    an equal mapping (same keys in the same order, same records) and
    leaves the first one as it was; and no call changes the world (file
    system, standard output) or an object that existed before. *)
Theorem parse_news_keeps_no_state
        (BeautifulSoup : string -> list node) (html : string)
        (st : Store.Interp) :
  exists a1 st1 a2 st2,
    Store.parse_news BeautifulSoup html st = (Ok a1, st1)
    /\ Store.parse_news BeautifulSoup html st1 = (Ok a2, st2)
    /\ Store.deref st2 a2 = Store.deref st1 a1
    /\ Store.deref st2 a1 = Store.deref st1 a1
    /\ a1 <> a2
    /\ Ok (Store.deref st1 a1) = parse_news BeautifulSoup html
    /\ (forall other,
           exists a' st',
             Store.parse_news BeautifulSoup html other = (Ok a', st')
             /\ Store.deref st' a' = Store.deref st1 a1
             /\ Store.io st' = Store.io other)
    /\ Store.io st1 = Store.io st
    /\ Store.io st2 = Store.io st
    /\ (forall a, a < List.length (Store.heap st) ->
                  Store.deref st1 a = Store.deref st a
                  /\ Store.deref st2 a = Store.deref st a).
Proof.
  set (result := grouped (extract (soup_of (BeautifulSoup html))) []).
  set (st1 := Store.mk_interp (Store.io st) (Store.heap st ++ [result])).
  set (st2 := Store.mk_interp (Store.io st)
                ((Store.heap st ++ [result]) ++ [result])).
  assert (Hrun : forall s,
             Store.parse_news BeautifulSoup html s
             = (Ok (List.length (Store.heap s)),
                Store.mk_interp (Store.io s) (Store.heap s ++ [result])))
    by (intros s; unfold Store.parse_news; apply parse_soup_run).
  assert (Hnew : forall h, nth (List.length h) (h ++ [result]) [] = result)
    by (intros h; apply nth_middle).
  exists (List.length (Store.heap st)), st1.
  exists (List.length (Store.heap st1)), st2.
  split; [apply Hrun | ]. split; [apply Hrun | ].
  assert (H1 : Store.deref st1 (List.length (Store.heap st)) = result)
    by (unfold Store.deref; simpl; apply Hnew).
  assert (H2 : Store.deref st2 (List.length (Store.heap st1)) = result)
    by (unfold Store.deref; simpl; apply Hnew).
  split; [rewrite H1, H2; reflexivity | ].
  split.
  { rewrite H1. unfold Store.deref. simpl.
    rewrite app_nth1 by (rewrite length_app; simpl; lia). apply Hnew. }
  split; [simpl; rewrite length_app; simpl; lia | ].
  split.
  { rewrite H1. unfold parse_news. symmetry. apply parse_soup_eq. }
  split.
  { intros other. eexists. eexists. split; [apply Hrun | ].
    split; [ | reflexivity].
    rewrite H1. unfold Store.deref. simpl. apply Hnew. }
  split; [reflexivity | ]. split; [reflexivity | ].
  intros a Ha. unfold Store.deref. simpl. split.
  - apply app_nth1. exact Ha.
  - rewrite app_nth1 by (rewrite length_app; simpl; lia).
    apply app_nth1. exact Ha.
Qed.

End Purity.
